(** * Simplenote editor pane: the note content editor and the note info panel

    A shallow embedding of [lib/note-content-editor.tsx] (the component
    [NoteContentEditor]) and of [characterCount] from the note info panel.

    JavaScript strings are sequences of UTF-16 code units; numbers that
    the component handles (offsets, line numbers, columns) are integers.
    Calls the component makes on its collaborators (the text surface, the
    store's dispatchers, the window) are recorded, in order, in a trace. *)

From Stdlib Require Import ZArith NArith List Bool Lia Ascii String.
From stdpp Require Import base decidable option list strings.
Import ListNotations.

Local Open Scope Z_scope.

(** ** JavaScript strings *)

Module JS.

(** A UTF-16 code unit, [0 .. 0xFFFF]. *)
Definition unit16 := N.

Definition str := list unit16.

(** [s.length] *)
Definition length (s : str) : Z := Z.of_nat (List.length s).

(** [s[i]]: [None] stands for [undefined]. *)
Definition index (s : str) (i : Z) : option unit16 :=
  if i <? 0 then None else s !! Z.to_nat i.

(** Relative index resolution of [String.prototype.slice]: a negative
    index counts from the end, and the result is kept in [0 .. len]. *)
Definition relIndex (len i : Z) : Z :=
  if i <? 0 then Z.max (len + i) 0 else Z.min i len.

(** [s.slice(b, e)] *)
Definition slice (s : str) (b e : Z) : str :=
  let len := length s in
  let from := relIndex len b in
  let to := relIndex len e in
  take (Z.to_nat (to - from)) (drop (Z.to_nat from) s).

(** [s.slice(b)] *)
Definition sliceFrom (s : str) (b : Z) : str := slice s b (length s).

(** The class [\s] of regular expressions, which is also what [trim]
    strips: white space and line terminators. *)
Definition isWhiteSpace (c : unit16) : bool :=
  ((0x09 <=? c) && (c <=? 0x0D) || (c =? 0x20) || (c =? 0xA0)
   || (c =? 0x1680) || (0x2000 <=? c) && (c <=? 0x200A)
   || (c =? 0x2028) || (c =? 0x2029) || (c =? 0x202F)
   || (c =? 0x205F) || (c =? 0x3000) || (c =? 0xFEFF))%N.

Fixpoint trimStart (s : str) : str :=
  match s with
  | c :: s' => if isWhiteSpace c then trimStart s' else s
  | [] => []
  end.

Definition trimEnd (s : str) : str := rev (trimStart (rev s)).

(** [s.trim()] *)
Definition trim (s : str) : str := trimEnd (trimStart s).

(** [a.length] for an array *)
Definition length_list {A} (a : list A) : Z := Z.of_nat (List.length a).

(** [a === b] on strings *)
Definition eqb (a b : str) : bool := bool_decide (a = b).

(** A string literal of ASCII characters. *)
Fixpoint lit (s : string) : str :=
  match s with
  | EmptyString => []
  | String a s' => N_of_ascii a :: lit s'
  end.

Definition LF : unit16 := 0x0A%N.

End JS.

(** ** The note info panel: [characterCount] *)

Module NoteInfo.

Definition isHighSurrogate (c : JS.unit16) : bool :=
  ((0xD800 <=? c) && (c <=? 0xDBFF))%N.

Definition isLowSurrogate (c : JS.unit16) : bool :=
  ((0xDC00 <=? c) && (c <=? 0xDFFF))%N.

Definition underscore : JS.unit16 := 0x5F%N.

(** [content.replace(surrogatePairs, '_')] with
    [surrogatePairs = /[\uD800-\uDBFF][\uDC00-\uDFFF]/g]: the global
    replace scans left to right and resumes after each match. *)
Fixpoint replaceSurrogatePairs (s : JS.str) : JS.str :=
  match s with
  | h :: ((l :: rest) as tl) =>
      if isHighSurrogate h && isLowSurrogate l
      then underscore :: replaceSurrogatePairs rest
      else h :: replaceSurrogatePairs tl
  | _ => s
  end.

(** [characterCount(content)]; [None] is a [null] or [undefined]
    argument, which [content || ''] turns into the empty string. *)
Definition characterCount (content : option JS.str) : Z :=
  JS.length (replaceSurrogatePairs (default [] content)).

(** The number of surrogate pairs of a string, counted position by
    position: a high surrogate immediately followed by a low one. *)
Fixpoint surrogatePairCount (s : JS.str) : Z :=
  match s with
  | h :: tl =>
      (if isHighSurrogate h && match tl with
                               | l :: _ => isLowSurrogate l
                               | [] => false
                               end
       then 1 else 0) + surrogatePairCount tl
  | [] => 0
  end.

(** *** [wordCount] *)

Definition zeroWidthSpace : JS.unit16 := 0x200B%N.

(** A run of zero-width spaces at the start of a string, dropped. *)
Fixpoint dropZeroWidthRun (s : JS.str) : JS.str :=
  match s with
  | c :: s' => if (c =? zeroWidthSpace)%N then dropZeroWidthRun s' else s
  | [] => []
  end.

(** The first [replace], whose pattern is one or more zero-width spaces
    (U+200B): the pattern is not global, so only the leftmost run of
    zero-width spaces goes. *)
Fixpoint removeFirstZeroWidthRun (s : JS.str) : JS.str :=
  match s with
  | c :: s' =>
      if (c =? zeroWidthSpace)%N then dropZeroWidthRun s'
      else c :: removeFirstZeroWidthRun s'
  | [] => []
  end.

(** The character class of the second [replace]: the apostrophe, the
    double quote, [;], [:], [,], [.], [?], the inverted question mark,
    the hyphen, [!] and the inverted exclamation mark. *)
Definition isPunctuation (c : JS.unit16) : bool :=
  ((c =? 0x27) || (c =? 0x22) || (c =? 0x3B) || (c =? 0x3A) || (c =? 0x2C)
   || (c =? 0x2E) || (c =? 0x3F) || (c =? 0xBF) || (c =? 0x2D) || (c =? 0x21)
   || (c =? 0xA1))%N.

(** The second [replace], global: every punctuation character goes. *)
Definition removePunctuation (s : JS.str) : JS.str :=
  List.filter (fun c => negb (isPunctuation c)) s.

(** The matches of the global pattern for runs of non-white-space, in
    order: the maximal runs. No match at all is the empty list, as
    [matches || []] has it. *)
Fixpoint matchNonSpace (s : JS.str) : list JS.str :=
  match s with
  | [] => []
  | c :: s' =>
      if JS.isWhiteSpace c then matchNonSpace s'
      else
        match s' with
        | d :: _ =>
            if JS.isWhiteSpace d then [c] :: matchNonSpace s'
            else match matchNonSpace s' with
                 | w :: ws => (c :: w) :: ws
                 | [] => [[c]]
                 end
        | [] => [[c]]
        end
  end.

(** [wordCount(content)] *)
Definition wordCount (content : option JS.str) : Z :=
  JS.length_list
    (matchNonSpace
       (removePunctuation
          (JS.trim (removeFirstZeroWidthRun (default [] content))))).

End NoteInfo.

(** ** The text surface (monaco-editor), as far as the component uses it *)

Module SelectionDirection.
(** [SelectionDirection.LTR], [SelectionDirection.RTL] *)
Inductive t := LTR | RTL.
End SelectionDirection.

Module CursorChangeReason.
Inductive t :=
  NotSet | ContentFlush | RecoverFromMarkers | Explicit | Paste | Undo | Redo.
End CursorChangeReason.

Module Position.
Record t := { lineNumber : Z; column : Z }.
End Position.

Module Range.
Record t := {
  startLineNumber : Z; startColumn : Z;
  endLineNumber : Z; endColumn : Z
}.
End Range.

Module Selection.
(** A selection as the surface reports it in a cursor event.
    [getDirection] is [RTL] when the selection's anchor lies after its
    active end, and [LTR] otherwise. *)
Record t := {
  getStartPosition : Position.t;
  getEndPosition : Position.t;
  getDirection : SelectionDirection.t
}.
End Selection.

Module ITextModel.
(** The methods of the text model that the component calls.
    [getLineContent] is [None] where the surface rejects the line number
    (it throws); [getPositionAt] is [None] for a nullish position, which
    the component's [?.] accesses allow for. *)
Record t := {
  getLineCount : Z;
  getLineContent : Z -> option JS.str;
  getOffsetAt : Position.t -> Z;
  getPositionAt : Z -> option Position.t
}.
End ITextModel.

Module IStandaloneCodeEditor.
(** [getModel(): ITextModel | null] *)
Record t := { getModel : option ITextModel.t }.
End IStandaloneCodeEditor.

(** The [monaco] namespace object handed to [editorDidMount]. *)
Inductive Monaco : Set := monacoApi.

(** ** Types of the component *)

Definition EntityId := string.

(** ['LTR' | 'RTL'], the direction as the store keeps it *)
Inductive Direction := LTR | RTL.

#[global] Instance Direction_eq_dec : EqDecision Direction.
Proof. solve_decision. Defined.

Inductive Mode := fast | full.

(** Handles returned by [setTimeout]: positive integers, hence truthy. *)
Definition TimerId := positive.

Module Note.
Record t := { content : JS.str }.
End Note.

Module Props.
(** [StateProps]; [fontSize], [searchQuery], [spellCheckEnabled] and
    [theme] only reach [render]. The dispatchers of [DispatchProps] are
    the calls [EditNote], [InsertTask] and [StoreEditorSelection]. *)
Record t := {
  editorSelection : Z * Z * Direction;
  keyboardShortcuts : bool;
  noteId : EntityId;
  note : Note.t
}.
End Props.

Module OwnState.
Record t := {
  content : JS.str;
  editor : Mode;
  noteId : option EntityId;
  overTodo : bool
}.
End OwnState.

Module PartialState.
(** What [getDerivedStateFromProps] returns and [setState] takes: the
    fields to overwrite. *)
Record t := {
  content : option JS.str;
  editor : option Mode;
  noteId : option EntityId
}.
End PartialState.

(** The fields of the component instance. *)
Module This.
Record t := {
  props : Props.t;
  state : OwnState.t;
  bootTimer : option TimerId;
  editor : option IStandaloneCodeEditor.t;
  monaco : option Monaco
}.
End This.

Module ChangeEvent.
(** [IModelContentChange] *)
Record Change := { range : Range.t; text : JS.str }.
(** [IModelContentChangedEvent] *)
Record t := {
  changes : list Change;
  eol : JS.str;
  isRedoing : bool;
  isUndoing : bool
}.
End ChangeEvent.

Module KeyboardEvent.
Record t := { code : string; ctrlKey : bool; metaKey : bool; shiftKey : bool }.
End KeyboardEvent.

Module CursorSelectionChangedEvent.
Record t := { reason : CursorChangeReason.t; selection : Selection.t }.
End CursorSelectionChangedEvent.

(** ** Calls on collaborators, and computations that make them *)

Inductive Call :=
(* the text model *)
| GetLineCount
| GetLineContent (line : Z)
| GetOffsetAt (p : Position.t)
| GetPositionAt (offset : Z)
(* the editor *)
| SetSelection (startLine startColumn endLine endColumn : option Z)
               (d : SelectionDirection.t)
| RevealLine (line : Z)
| Focus
| DeltaDecorations (line : Z)
| ExecuteEdits (source : string) (range : Range.t) (text : JS.str)
| SetPosition (p : Position.t)
| OnDidChangeModelContent
| OnDidChangeCursorSelection
| OnMouseMove
| OnMouseDown
(* [Promise.resolve().then(() => c)] *)
| Microtask (c : Call)
(* the store *)
| EditNote (noteId : EntityId) (content : JS.str)
| InsertTask
| StoreEditorSelection (noteId : EntityId) (start end_ : option Z)
                       (d : Direction)
(* the window, the document and the event at hand *)
| AddKeydownListener
| RemoveKeydownListener
| SetTimeout (delay : Z) (id : TimerId)
| ClearTimeout (id : TimerId)
| SetDocumentOnCopy
| StopPropagation
| PreventDefault.

Inductive Error :=
| TypeError      (* a property read on [null] or [undefined] *)
| SurfaceError.  (* thrown by the text surface *)

Inductive Completion (A : Type) :=
| Normal (a : A)
| Throw (e : Error).
Arguments Normal {A} a.
Arguments Throw {A} e.

(** A computation: the calls it made, and how it completed. *)
Definition Eff (A : Type) : Type := list Call * Completion A.

Definition ret {A} (a : A) : Eff A := ([], Normal a).

Definition bind {A B} (m : Eff A) (f : A -> Eff B) : Eff B :=
  match m with
  | (t, Normal a) => let '(t', r) := f a in (t ++ t', r)
  | (t, Throw e) => (t, Throw e)
  end.

Definition call (c : Call) : Eff unit := ([c], Normal tt).

Definition throw {A} (e : Error) : Eff A := ([], Throw e).

Definition trace {A} (m : Eff A) : list Call := fst m.

Definition completion {A} (m : Eff A) : Completion A := snd m.

Notation "x <- m ;; k" := (bind m (fun x => k))
  (at level 100, m at next level, right associativity).
Notation "m ;;; k" := (bind m (fun _ => k))
  (at level 100, right associativity).

(** ** [utils/task-transform]

  The component imports the two directions of the checkbox codec from
  [./utils/task-transform]; it only applies them, so they are taken as
  an interface. *)

Class TaskTransform := {
  (* display text to persisted text: sentinel characters to checkbox syntax *)
  withCheckboxSyntax : JS.str -> JS.str;
  (* persisted text to display text: checkbox syntax to sentinel characters *)
  withCheckboxCharacters : JS.str -> JS.str
}.

(** The two checkbox sentinels, U+E000 (unchecked) and U+E001 (checked). *)
Definition unchecked : JS.unit16 := 0xE000%N.
Definition checked : JS.unit16 := 0xE001%N.

(** ** The window's timers *)

Module Window.
(** A pending timer: its handle and the [noteId] that the boot callback
    captured when it was armed. *)
Record t := {
  timers : list (TimerId * EntityId);
  nextTimerId : TimerId;
  keydownListeners : nat
}.

Definition setTimeout (w : t) (captured : EntityId) : TimerId * t :=
  (nextTimerId w,
   {| timers := timers w ++ [(nextTimerId w, captured)];
      nextTimerId := (nextTimerId w + 1)%positive;
      keydownListeners := keydownListeners w |}).

Definition clearTimeout (w : t) (id : TimerId) : t :=
  {| timers := filter (fun tm => tm.1 ≠ id) (timers w);
     nextTimerId := nextTimerId w;
     keydownListeners := keydownListeners w |}.

Definition addEventListener (w : t) : t :=
  {| timers := timers w;
     nextTimerId := nextTimerId w;
     keydownListeners := S (keydownListeners w) |}.

Definition removeEventListener (w : t) : t :=
  {| timers := timers w;
     nextTimerId := nextTimerId w;
     keydownListeners := pred (keydownListeners w) |}.
End Window.

(** ** The component [NoteContentEditor] *)

Module NoteContentEditor.
Section Component.
Context {codec : TaskTransform}.

Definition SPEED_DELAY : Z := 120.

Definition initialState : OwnState.t :=
  {| OwnState.content := [];
     OwnState.editor := fast;
     OwnState.noteId := None;
     OwnState.overTodo := false |}.

(** The instance as the class fields initialise it. *)
Definition construct (props : Props.t) : This.t :=
  {| This.props := props;
     This.state := initialState;
     This.bootTimer := None;
     This.editor := None;
     This.monaco := None |}.

Definition selectionStart (sel : Z * Z * Direction) : Z := sel.1.1.
Definition selectionEnd (sel : Z * Z * Direction) : Z := sel.1.2.
Definition selectionDirection (sel : Z * Z * Direction) : Direction := sel.2.

Definition getDerivedStateFromProps (props : Props.t) (state : OwnState.t)
  : option PartialState.t :=
  let content := Note.content (Props.note props) in
  let goFast := JS.length content >? 5000 in
  if bool_decide (Some (Props.noteId props) ≠ OwnState.noteId state) then
    Some {| PartialState.content :=
              Some (if goFast
                    then JS.slice content 0
                           (selectionEnd (Props.editorSelection props) + 5000)
                    else withCheckboxCharacters content);
            PartialState.editor := Some (if goFast then fast else full);
            PartialState.noteId := Some (Props.noteId props) |}
  else
    if negb (JS.eqb content (OwnState.content state)) then
      Some {| PartialState.content := Some (withCheckboxCharacters content);
              PartialState.editor := None;
              PartialState.noteId := None |}
    else None.

(** *** What React does with these pieces *)

(** Merging a partial state into the state. *)
Definition merge (state : OwnState.t) (p : option PartialState.t) : OwnState.t :=
  match p with
  | None => state
  | Some p =>
      {| OwnState.content := default (OwnState.content state) (PartialState.content p);
         OwnState.editor := default (OwnState.editor state) (PartialState.editor p);
         OwnState.noteId :=
           match PartialState.noteId p with
           | Some id => Some id
           | None => OwnState.noteId state
           end;
         OwnState.overTodo := OwnState.overTodo state |}
  end.

Definition withState (this : This.t) (state : OwnState.t) : This.t :=
  {| This.props := This.props this;
     This.state := state;
     This.bootTimer := This.bootTimer this;
     This.editor := This.editor this;
     This.monaco := This.monaco this |}.

Definition withProps (this : This.t) (props : Props.t) : This.t :=
  {| This.props := props;
     This.state := This.state this;
     This.bootTimer := This.bootTimer this;
     This.editor := This.editor this;
     This.monaco := This.monaco this |}.

Definition withBootTimer (this : This.t) (id : TimerId) : This.t :=
  {| This.props := This.props this;
     This.state := This.state this;
     This.bootTimer := Some id;
     This.editor := This.editor this;
     This.monaco := This.monaco this |}.

(** Before every render the state is derived from the props. *)
Definition deriveState (this : This.t) : This.t :=
  withState this
    (merge (This.state this)
           (getDerivedStateFromProps (This.props this) (This.state this))).

(** [this.setState(p)]: merge, then render again. *)
Definition setState (this : This.t) (p : PartialState.t) : This.t :=
  deriveState (withState this (merge (This.state this) (Some p))).

(** *** Lifecycle *)

(** The callback handed to [setTimeout] in [componentDidMount]; it
    closes over the [noteId] read when the component mounted. *)
Definition bootCallback (noteId : EntityId) (this : This.t) : This.t :=
  if bool_decide (noteId = Props.noteId (This.props this)) then
    setState this
      {| PartialState.editor := Some full;
         PartialState.content :=
           Some (withCheckboxCharacters
                   (Note.content (Props.note (This.props this))));
         PartialState.noteId := None |}
  else this.

Definition componentDidMount (this : This.t) (w : Window.t)
  : This.t * Window.t * list Call :=
  let noteId := Props.noteId (This.props this) in
  let w1 := Window.addEventListener w in
  let '(id, w2) := Window.setTimeout w1 noteId in
  (withBootTimer this id, w2, [AddKeydownListener; SetTimeout SPEED_DELAY id]).

Definition componentWillUnmount (this : This.t) (w : Window.t)
  : Window.t * list Call :=
  match This.bootTimer this with
  | Some id =>
      (Window.removeEventListener (Window.clearTimeout w id),
       [ClearTimeout id; RemoveKeydownListener])
  | None => (Window.removeEventListener w, [RemoveKeydownListener])
  end.

Definition toSelectionDirection (d : Direction) : SelectionDirection.t :=
  match d with
  | RTL => SelectionDirection.RTL
  | LTR => SelectionDirection.LTR
  end.

(** [model?.getPositionAt(offset)] *)
Definition getPositionAt (model : option ITextModel.t) (offset : Z)
  : Eff (option Position.t) :=
  match model with
  | Some m => call (GetPositionAt offset) ;;; ret (ITextModel.getPositionAt m offset)
  | None => ret None
  end.

(** [model.getOffsetAt(position)] on a model that is there *)
Definition offsetAt (m : ITextModel.t) (p : Position.t) : Eff Z :=
  call (GetOffsetAt p) ;;; ret (ITextModel.getOffsetAt m p).

(** [model?.getOffsetAt(position)] *)
Definition getOffsetAt (model : option ITextModel.t) (p : Position.t)
  : Eff (option Z) :=
  match model with
  | Some m => offset <- offsetAt m p ;; ret (Some offset)
  | None => ret None
  end.

(** [model.getLineContent(line)] on a model that is there *)
Definition getLineContent (m : ITextModel.t) (line : Z) : Eff JS.str :=
  call (GetLineContent line) ;;;
  match ITextModel.getLineContent m line with
  | Some s => ret s
  | None => throw SurfaceError
  end.

(** [editor.setSelection(Selection.createWithDirection(start?.lineNumber,
    start?.column, end?.lineNumber, end?.column, direction))] *)
Definition setSelection (start end_ : option Position.t) (d : Direction)
  : Eff unit :=
  call (SetSelection (Position.lineNumber <$> start) (Position.column <$> start)
                     (Position.lineNumber <$> end_) (Position.column <$> end_)
                     (toSelectionDirection d)).

Definition isFull (m : Mode) : bool :=
  match m with full => true | fast => false end.

Definition componentDidUpdate (this : This.t) (prevProps : Props.t) : Eff unit :=
  let '(prevStart, prevEnd, prevDirection) := Props.editorSelection prevProps in
  let '(thisStart, thisEnd, thisDirection) :=
    Props.editorSelection (This.props this) in
  match This.editor this with
  | Some editor =>
      if isFull (OwnState.editor (This.state this))
         && (bool_decide (prevStart ≠ thisStart)
             || bool_decide (prevEnd ≠ thisEnd)
             || bool_decide (prevDirection ≠ thisDirection))
      then
        start <- getPositionAt (IStandaloneCodeEditor.getModel editor) thisStart ;;
        end_ <- getPositionAt (IStandaloneCodeEditor.getModel editor) thisEnd ;;
        setSelection start end_ thisDirection
      else ret tt
  | None => ret tt
  end.

(** React mounting the component, and React handing it new props. *)
Definition mount (props : Props.t) (w : Window.t)
  : This.t * Window.t * list Call :=
  componentDidMount (deriveState (construct props)) w.

Definition update (this : This.t) (props : Props.t) : This.t * Eff unit :=
  let this' := deriveState (withProps this props) in
  (this', componentDidUpdate this' (This.props this)).

(** The window running the timer [id], if it is still pending. *)
Definition fireTimer (this : This.t) (w : Window.t) (id : TimerId)
  : This.t * Window.t :=
  match list_find (fun tm => tm.1 = id) (Window.timers w) with
  | Some (_, (_, captured)) => (bootCallback captured this, Window.clearTimeout w id)
  | None => (this, w)
  end.

(** *** The key-down listener *)

(** The result is what the listener returns: [None] for [undefined]. *)
Definition handleKeys (this : This.t) (event : KeyboardEvent.t)
  : Eff (option bool) :=
  if negb (Props.keyboardShortcuts (This.props this)) then ret None
  else
    let cmdOrCtrl := KeyboardEvent.ctrlKey event || KeyboardEvent.metaKey event in
    if cmdOrCtrl && KeyboardEvent.shiftKey event
       && bool_decide ("KeyC"%string = KeyboardEvent.code event)
    then
      call InsertTask ;;;
      call StopPropagation ;;;
      call PreventDefault ;;;
      ret (Some false)
    else ret (Some true).

(** *** [editorReady] and the handlers it registers *)

(** The loop of [decorateFirstLine], about to test [i <= getLineCount()]
    with [n] lines left from [i] on. *)
Fixpoint decorateLoop (model : ITextModel.t) (n : nat) (i : Z) : Eff unit :=
  call GetLineCount ;;;
  match n with
  | O => ret tt
  | S n' =>
      line <- getLineContent model i ;;
      if 0 <? JS.length (JS.trim line)
      then call (DeltaDecorations i)
      else decorateLoop model n' (i + 1)
  end.

Definition decorateFirstLine (editor : IStandaloneCodeEditor.t) : Eff unit :=
  match IStandaloneCodeEditor.getModel editor with
  | None => ret tt
  | Some model =>
      decorateLoop model (Z.to_nat (ITextModel.getLineCount model)) 1
  end.

Definition withEditor (this : This.t) (editor : IStandaloneCodeEditor.t)
           (monaco : Monaco) : This.t :=
  {| This.props := This.props this;
     This.state := This.state this;
     This.bootTimer := This.bootTimer this;
     This.editor := Some editor;
     This.monaco := Some monaco |}.

(** [editorReady] assigns [this.editor] and [this.monaco] first; the
    instance it leaves is the first component of the result, whether or
    not the rest completes. *)
Definition editorReady (this : This.t) (editor : IStandaloneCodeEditor.t)
           (monaco : Monaco) : This.t * Eff unit :=
  let this' := withEditor this editor monaco in
  (this',
   decorateFirstLine editor ;;;
   call OnDidChangeModelContent ;;;
   call SetDocumentOnCopy ;;;
   let '(startOffset, endOffset, direction) :=
     Props.editorSelection (This.props this') in
   start <- getPositionAt (IStandaloneCodeEditor.getModel editor) startOffset ;;
   end_ <- getPositionAt (IStandaloneCodeEditor.getModel editor) endOffset ;;
   setSelection start end_ direction ;;;
   match start with
   | None => throw TypeError
   | Some p =>
       call (RevealLine (Position.lineNumber p)) ;;;
       call Focus ;;;
       call OnDidChangeCursorSelection ;;;
       call OnMouseMove ;;;
       call OnMouseDown
   end).

Definition isUndoOrRedo (r : CursorChangeReason.t) : bool :=
  match r with
  | CursorChangeReason.Undo | CursorChangeReason.Redo => true
  | _ => false
  end.

(** The listener given to [editor.onDidChangeCursorSelection]. *)
Definition onDidChangeCursorSelection (editor : IStandaloneCodeEditor.t)
           (this : This.t) (e : CursorSelectionChangedEvent.t) : Eff unit :=
  if isUndoOrRedo (CursorSelectionChangedEvent.reason e) then ret tt
  else
    let sel := CursorSelectionChangedEvent.selection e in
    start <- getOffsetAt (IStandaloneCodeEditor.getModel editor)
               (Selection.getStartPosition sel) ;;
    end_ <- getOffsetAt (IStandaloneCodeEditor.getModel editor)
              (Selection.getEndPosition sel) ;;
    let direction :=
      match Selection.getDirection sel with
      | SelectionDirection.LTR => LTR
      | SelectionDirection.RTL => RTL
      end in
    call (StoreEditorSelection (Props.noteId (This.props this)) start end_ direction).

(** The listener given to [editor.onMouseDown]; [range] is
    [event.target.range]. *)
Definition onMouseDown (editor : IStandaloneCodeEditor.t) (this : This.t)
           (range : option Range.t) : Eff unit :=
  let noteId := Props.noteId (This.props this) in
  let content := OwnState.content (This.state this) in
  match range with
  | None => ret tt
  | Some range =>
      match IStandaloneCodeEditor.getModel editor with
      | None => ret tt
      | Some model =>
          let p := {| Position.lineNumber := Range.startLineNumber range;
                      Position.column := Range.startColumn range |} in
          offset <- offsetAt model p ;;
          if bool_decide (JS.index content offset = Some unchecked) then
            call (EditNote noteId
                    (withCheckboxSyntax
                       (JS.slice content 0 offset ++ [checked]
                        ++ JS.sliceFrom content (offset + 1))))
          else if bool_decide (JS.index content offset = Some checked) then
            call (EditNote noteId
                    (withCheckboxSyntax
                       (JS.slice content 0 offset ++ [unchecked]
                        ++ JS.sliceFrom content (offset + 1))))
          else ret tt
      end
  end.

(** *** [updateNote] and its list completion *)

(** The test of [event.changes.find]:
    [text[0] === '\n' && text.trim() === ''] *)
Definition isNewlineChange (c : ChangeEvent.Change) : bool :=
  bool_decide (JS.index (ChangeEvent.text c) 0 = Some JS.LF)
  && JS.eqb (JS.trim (ChangeEvent.text c)) [].

(** The character class of the list markers: hyphen, plus, asterisk,
    the bullet U+2022 and the two checkbox sentinels. *)
Definition isListMarker (c : JS.unit16) : bool :=
  ((c =? 0x2D) || (c =? 0x2B) || (c =? 0x2A) || (c =? 0x2022)
   || (c =? 0xE000) || (c =? 0xE001))%N.

(** The longest run of white space at the start of a string, and what
    follows it. *)
Fixpoint spanWhiteSpace (s : JS.str) : JS.str * JS.str :=
  match s with
  | c :: s' =>
      if JS.isWhiteSpace c
      then let '(ws, rest) := spanWhiteSpace s' in (c :: ws, rest)
      else ([], s)
  | [] => ([], [])
  end.

(** The [exec] of the list pattern on a line, reduced to the whole
    match [prevList[0]], the only part the component reads. The pattern
    is anchored at the start of the line and asks for white space (any
    number), one list marker, and white space (one or more). Both
    quantifiers are greedy and no marker is white space, so the match,
    when there is one, takes all the leading white space, the marker and
    all the white space after it. *)
Definition execPrevList (line : JS.str) : option JS.str :=
  let '(indent, rest) := spanWhiteSpace line in
  match rest with
  | m :: rest' =>
      if isListMarker m then
        match spanWhiteSpace rest' with
        | ([], _) => None
        | (gap, _) => Some (indent ++ m :: gap)
        end
      else None
  | [] => None
  end.

(** The test of the blank-line pattern: white space from the start of
    the line to its end. *)
Definition testBlank (line : JS.str) : bool := forallb JS.isWhiteSpace line.

(** The inner function [autolist]; [None] is a return of [undefined]. *)
Definition autolist (this : This.t) (value : JS.str) (event : ChangeEvent.t)
  : Eff (option JS.str) :=
  match This.editor this with
  | None => ret None
  | Some editor =>
  if ChangeEvent.isRedoing event || ChangeEvent.isUndoing event then ret None
  else
  match find isNewlineChange (ChangeEvent.changes event) with
  | None => ret None
  | Some change =>
  let lineNumber := Range.startLineNumber (ChangeEvent.range change) in
  if bool_decide (lineNumber = 0)
     || bool_decide (lineNumber ≠ Range.endLineNumber (ChangeEvent.range change))
  then ret None
  else
  match IStandaloneCodeEditor.getModel editor with
  | None => throw TypeError
  | Some model =>
  prevLine <- getLineContent model lineNumber ;;
  match execPrevList prevLine with
  | None => ret None
  | Some prevList0 =>
  thisLine <- getLineContent model (lineNumber + 1) ;;
  if negb (testBlank thisLine) then ret None
  else
  lineStart <- offsetAt model
                 {| Position.column := 0;
                    Position.lineNumber := lineNumber + 1 |} ;;
  nextStart <- offsetAt model
                 {| Position.column := 0;
                    Position.lineNumber := lineNumber + 2 |} ;;
  match This.monaco this with
  | None => throw TypeError
  | Some _ =>
  let range := {| Range.startLineNumber := lineNumber + 1;
                  Range.startColumn := 0;
                  Range.endLineNumber := lineNumber + 1;
                  Range.endColumn := JS.length thisLine |} in
  call (ExecuteEdits "autolist" range prevList0) ;;;
  call (Microtask
          (SetPosition {| Position.column := JS.length prevList0 + 1;
                          Position.lineNumber := lineNumber + 1 |})) ;;;
  ret (Some (JS.slice value 0 lineStart
             ++ prevList0
             ++ ChangeEvent.eol event
             ++ JS.sliceFrom value nextStart))
  end end end end end.

(** [a || b] for a string or [undefined] on the left: the empty string
    is falsy too. *)
Definition orElse (a : option JS.str) (b : JS.str) : JS.str :=
  match a with
  | Some (c :: a') => c :: a'
  | _ => b
  end.

Definition updateNote (this : This.t) (value : JS.str) (event : ChangeEvent.t)
  : Eff unit :=
  match This.editor this with
  | None => ret tt
  | Some _ =>
      r <- autolist this value event ;;
      let content := orElse r value in
      call (EditNote (Props.noteId (This.props this))
                     (withCheckboxSyntax content))
  end.

(** *** The hover listener *)

(** [this.setState({ overTodo })] *)
Definition setOverTodo (this : This.t) (overTodo : bool) : This.t :=
  deriveState
    (withState this
       {| OwnState.content := OwnState.content (This.state this);
          OwnState.editor := OwnState.editor (This.state this);
          OwnState.noteId := OwnState.noteId (This.state this);
          OwnState.overTodo := overTodo |}).

(** The listener given to [editor.onMouseMove]; [range] is
    [event.target.range]. The result is the instance it leaves and the
    calls it made. *)
Definition onMouseMove (editor : IStandaloneCodeEditor.t) (this : This.t)
           (range : option Range.t) : This.t * Eff unit :=
  let content := OwnState.content (This.state this) in
  match range with
  | None => (this, ret tt)
  | Some range =>
      match IStandaloneCodeEditor.getModel editor with
      | None => (this, ret tt)
      | Some model =>
          let p := {| Position.lineNumber := Range.startLineNumber range;
                      Position.column := Range.startColumn range |} in
          let offset := ITextModel.getOffsetAt model p in
          (setOverTodo this
             (bool_decide (JS.index content offset = Some unchecked)
              || bool_decide (JS.index content offset = Some checked)),
           call (GetOffsetAt p))
      end
  end.

End Component.
End NoteContentEditor.

(** ** A text model to run the component on

  A model over a text whose lines are separated by a line feed. It
  answers the way the surface does: a position is validated into the
  document before it is converted, an offset is kept within the text,
  and a line number outside the document is rejected. *)

Module ReferenceModel.

Fixpoint splitLines (s : JS.str) : list JS.str :=
  match s with
  | [] => [[]]
  | c :: s' =>
      if (c =? JS.LF)%N then [] :: splitLines s'
      else match splitLines s' with
           | l :: ls => (c :: l) :: ls
           | [] => [[c]]
           end
  end.

Definition lineCount (lines : list JS.str) : Z := Z.of_nat (List.length lines).

Definition lineContent (lines : list JS.str) (line : Z) : option JS.str :=
  if (1 <=? line) && (line <=? lineCount lines)
  then lines !! Z.to_nat (line - 1)
  else None.

(** [getLineMaxColumn] *)
Definition lineMaxColumn (lines : list JS.str) (line : Z) : Z :=
  JS.length (default [] (lineContent lines line)) + 1.

Definition validatePosition (lines : list JS.str) (p : Position.t) : Position.t :=
  let line := Position.lineNumber p in
  let col := Position.column p in
  let count := lineCount lines in
  if line <? 1 then {| Position.lineNumber := 1; Position.column := 1 |}
  else if count <? line then
    {| Position.lineNumber := count;
       Position.column := lineMaxColumn lines count |}
  else if col <=? 1 then
    {| Position.lineNumber := line; Position.column := 1 |}
  else if lineMaxColumn lines line <=? col then
    {| Position.lineNumber := line;
       Position.column := lineMaxColumn lines line |}
  else p.

(** The offset at which a line starts. *)
Definition lineStart (lines : list JS.str) (line : Z) : Z :=
  foldr (fun l acc => JS.length l + 1 + acc) 0 (take (Z.to_nat (line - 1)) lines).

Definition offsetAt (lines : list JS.str) (p : Position.t) : Z :=
  let q := validatePosition lines p in
  lineStart lines (Position.lineNumber q) + (Position.column q - 1).

Fixpoint positionFrom (lines : list JS.str) (line : Z) (offset : Z) : Position.t :=
  match lines with
  | l :: ((_ :: _) as rest) =>
      if offset <=? JS.length l
      then {| Position.lineNumber := line; Position.column := offset + 1 |}
      else positionFrom rest (line + 1) (offset - JS.length l - 1)
  | [l] =>
      {| Position.lineNumber := line;
         Position.column := Z.min offset (JS.length l) + 1 |}
  | [] => {| Position.lineNumber := line; Position.column := 1 |}
  end.

Definition positionAt (lines : list JS.str) (offset : Z) : Position.t :=
  positionFrom lines 1 (Z.max 0 offset).

Definition ofValue (value : JS.str) : ITextModel.t :=
  let lines := splitLines value in
  {| ITextModel.getLineCount := lineCount lines;
     ITextModel.getLineContent := lineContent lines;
     ITextModel.getOffsetAt := offsetAt lines;
     ITextModel.getPositionAt := fun o => Some (positionAt lines o) |}.

(** An editor showing [value]. *)
Definition editorOf (value : JS.str) : IStandaloneCodeEditor.t :=
  {| IStandaloneCodeEditor.getModel := Some (ofValue value) |}.

(** An editor without a model. *)
Definition detached : IStandaloneCodeEditor.t :=
  {| IStandaloneCodeEditor.getModel := None |}.

End ReferenceModel.

(** ** A checkbox codec to run the component on *)

Module SpecCodec.

Definition lbracket : JS.unit16 := 0x5B%N.
Definition rbracket : JS.unit16 := 0x5D%N.
Definition space : JS.unit16 := 0x20%N.
Definition letter_x : JS.unit16 := 0x78%N.

(** Modelled from the spec: the encode direction of the checkbox codec
    ([withCheckboxSyntax] of [utils/task-transform], whose source is not
    at hand). Each sentinel becomes its bracketed syntax token, and no
    other character changes. *)
Fixpoint encode (s : JS.str) : JS.str :=
  match s with
  | [] => []
  | c :: s' =>
      if (c =? unchecked)%N then lbracket :: space :: rbracket :: encode s'
      else if (c =? checked)%N then lbracket :: letter_x :: rbracket :: encode s'
      else c :: encode s'
  end.

(** Modelled from the spec: the decode direction of the checkbox codec
    ([withCheckboxCharacters] of [utils/task-transform], whose source is
    not at hand). Each bracketed syntax token becomes its sentinel, and
    no other character changes. *)
Fixpoint decode (s : JS.str) : JS.str :=
  match s with
  | a :: ((b :: ((c :: rest) as t2)) as t1) =>
      if (a =? lbracket)%N && (b =? space)%N && (c =? rbracket)%N
      then unchecked :: decode rest
      else if (a =? lbracket)%N && (b =? letter_x)%N && (c =? rbracket)%N
      then checked :: decode rest
      else a :: decode t1
  | a :: t1 => a :: decode t1
  | [] => []
  end.

Definition codec : TaskTransform :=
  {| withCheckboxSyntax := encode; withCheckboxCharacters := decode |}.

End SpecCodec.

(** ** What a trace shows, and the words of the list pattern *)

Module Observe.

Definition isDispatch (c : Call) : bool :=
  match c with
  | EditNote _ _ | InsertTask | StoreEditorSelection _ _ _ _ => true
  | _ => false
  end.

(** The requests handed to the store's dispatchers, in order. *)
Definition dispatches (t : list Call) : list Call := List.filter isDispatch t.

Definition isSetTimeout (c : Call) : bool :=
  match c with SetTimeout _ _ => true | _ => false end.

Definition isClearTimeout (c : Call) : bool :=
  match c with ClearTimeout _ => true | _ => false end.

(** How many timers a trace arms, and how many it cancels. *)
Definition timersArmed (t : list Call) : nat :=
  List.length (List.filter isSetTimeout t).

Definition timersCancelled (t : list Call) : nat :=
  List.length (List.filter isClearTimeout t).

(** The offsets handed to the surface for conversion, in order. *)
Definition offsetsAsked (t : list Call) : list Z :=
  omap (fun c => match c with GetPositionAt o => Some o | _ => None end) t.

(** The chord Ctrl/Cmd + Shift + C. *)
Definition isInsertTaskChord (e : KeyboardEvent.t) : Prop :=
  (KeyboardEvent.ctrlKey e = true \/ KeyboardEvent.metaKey e = true)
  /\ KeyboardEvent.shiftKey e = true
  /\ KeyboardEvent.code e = "KeyC"%string.

(** The component receiving new props time after time: the instance it
    ends as, and all the calls its [componentDidUpdate] made. *)
Fixpoint updates {codec : TaskTransform} (this : This.t) (ps : list Props.t)
  : This.t * list Call :=
  match ps with
  | [] => (this, [])
  | p :: ps' =>
      let step := NoteContentEditor.update this p in
      let rest := updates (fst step) ps' in
      (fst rest, trace (snd step) ++ snd rest)
  end.

(** Handles of pending timers are older than the next handle. *)
Definition freshHandles (w : Window.t) : Prop :=
  Forall (fun tm => (tm.1 < Window.nextTimerId w)%positive) (Window.timers w).

(** Once the state has been derived from the props, it names the note of
    the props. *)
Definition Synced (this : This.t) : Prop :=
  OwnState.noteId (This.state this) = Some (Props.noteId (This.props this)).

Definition WhiteSpace (s : JS.str) : Prop :=
  Forall (fun c => JS.isWhiteSpace c = true) s.

(** An inserted text that starts with a line feed and holds nothing but
    white space. *)
Definition NewlineText (text : JS.str) : Prop :=
  exists ws, text = JS.LF :: ws /\ WhiteSpace ws.

(** [prefix] is the start of [line] made of all its leading white
    space, one list marker, and all the white space after the marker,
    of which there is some. *)
Definition ListPrefix (line prefix : JS.str) : Prop :=
  exists indent m gap rest,
    line = indent ++ m :: gap ++ rest
    /\ WhiteSpace indent
    /\ NoteContentEditor.isListMarker m = true
    /\ gap <> []
    /\ WhiteSpace gap
    /\ (forall c, head rest = Some c -> JS.isWhiteSpace c = false)
    /\ prefix = indent ++ m :: gap.

(** [change] is the first of the edit operations whose inserted text is
    a [NewlineText]. *)
Definition FirstNewlineChange (changes : list ChangeEvent.Change)
           (change : ChangeEvent.Change) : Prop :=
  exists before after,
    changes = before ++ change :: after
    /\ Forall (fun c => ~ NewlineText (ChangeEvent.text c)) before
    /\ NewlineText (ChangeEvent.text change).

(** The ways in which a content change leaves nothing to complete: it
    comes from undo or redo; no edit operation inserts a [NewlineText];
    the first that does starts on line 0, or ends on another line than it
    starts on; the line it starts on has no list prefix; the line after
    that one is not blank. *)
Inductive NothingToComplete (model : ITextModel.t) (event : ChangeEvent.t) : Prop :=
| FromUndoRedo :
    ChangeEvent.isRedoing event = true \/ ChangeEvent.isUndoing event = true ->
    NothingToComplete model event
| NoNewline :
    Forall (fun c => ~ NewlineText (ChangeEvent.text c)) (ChangeEvent.changes event) ->
    NothingToComplete model event
| OnLineZero change :
    FirstNewlineChange (ChangeEvent.changes event) change ->
    Range.startLineNumber (ChangeEvent.range change) = 0 ->
    NothingToComplete model event
| AcrossLines change :
    FirstNewlineChange (ChangeEvent.changes event) change ->
    Range.endLineNumber (ChangeEvent.range change)
    <> Range.startLineNumber (ChangeEvent.range change) ->
    NothingToComplete model event
| NoMarker change prevLine :
    FirstNewlineChange (ChangeEvent.changes event) change ->
    ITextModel.getLineContent model
      (Range.startLineNumber (ChangeEvent.range change)) = Some prevLine ->
    (forall prefix, ~ ListPrefix prevLine prefix) ->
    NothingToComplete model event
| NotBlank change prevLine thisLine :
    FirstNewlineChange (ChangeEvent.changes event) change ->
    ITextModel.getLineContent model
      (Range.startLineNumber (ChangeEvent.range change)) = Some prevLine ->
    ITextModel.getLineContent model
      (Range.startLineNumber (ChangeEvent.range change) + 1) = Some thisLine ->
    ~ WhiteSpace thisLine ->
    NothingToComplete model event.

(** [updateNote] passing the raw edited value on: it dispatches one
    edit-note request, with the value re-encoded, and edits nothing in the
    surface. *)
Definition PassesRaw {codec : TaskTransform} (this : This.t) (value : JS.str)
           (event : ChangeEvent.t) : Prop :=
  dispatches (trace (NoteContentEditor.updateNote this value event))
  = [EditNote (Props.noteId (This.props this)) (withCheckboxSyntax value)]
  /\ completion (NoteContentEditor.updateNote this value event) = Normal tt
  /\ Forall (fun c => match c with
                      | ExecuteEdits _ _ _ | Microtask _ => False
                      | _ => True
                      end) (trace (NoteContentEditor.updateNote this value event)).

End Observe.

(** ** Instances to run the component on *)

Module Fixture.

Definition note1 : EntityId := "note-1".
Definition note2 : EntityId := "note-2".

Definition propsOf (id : EntityId) (sel : Z * Z * Direction) (content : JS.str)
  : Props.t :=
  {| Props.editorSelection := sel;
     Props.keyboardShortcuts := true;
     Props.noteId := id;
     Props.note := {| Note.content := content |} |}.

(** The component in full mode on [note1], its surface showing [value]. *)
Definition opened (sel : Z * Z * Direction) (value : JS.str) : This.t :=
  {| This.props := propsOf note1 sel value;
     This.state := {| OwnState.content := value;
                      OwnState.editor := full;
                      OwnState.noteId := Some note1;
                      OwnState.overTodo := false |};
     This.bootTimer := Some 1%positive;
     This.editor := Some (ReferenceModel.editorOf value);
     This.monaco := Some monacoApi |}.

Definition window0 : Window.t :=
  {| Window.timers := []; Window.nextTimerId := 1%positive; Window.keydownListeners := 0 |}.

(** A note of 5001 characters. *)
Definition oversized : JS.str := repeat 0x61%N (Z.to_nat 5001).

Definition hyphen : JS.unit16 := 0x2D%N.
Definition space : JS.unit16 := 0x20%N.

(** ["- item"] *)
Definition item : JS.str := JS.lit "- item".

(** An edit of [text] over a range. *)
Definition changeAt (l1 c1 l2 c2 : Z) (text : JS.str) : ChangeEvent.Change :=
  {| ChangeEvent.range := {| Range.startLineNumber := l1; Range.startColumn := c1;
                             Range.endLineNumber := l2; Range.endColumn := c2 |};
     ChangeEvent.text := text |}.

Definition typed (changes : list ChangeEvent.Change) : ChangeEvent.t :=
  {| ChangeEvent.changes := changes;
     ChangeEvent.eol := [JS.LF];
     ChangeEvent.isRedoing := false;
     ChangeEvent.isUndoing := false |}.

End Fixture.

(** ** Runs of the component, and more of what traces and texts show *)

Module Scenario.

(** What can happen to a mounted component: React hands it new props, or
    the window runs a timer. *)
Inductive Event :=
| ReceiveProps (p : Props.t)
| TimerFires (id : TimerId).

Definition step {codec : TaskTransform} (c : This.t * Window.t) (e : Event)
  : This.t * Window.t :=
  match e with
  | ReceiveProps p => (fst (NoteContentEditor.update c.1 p), c.2)
  | TimerFires id => NoteContentEditor.fireTimer c.1 c.2 id
  end.

Definition run {codec : TaskTransform} (c : This.t * Window.t) (es : list Event)
  : This.t * Window.t :=
  fold_left step es c.

(** An event that leaves the note [id] open. *)
Definition keepsNote (id : EntityId) (e : Event) : Prop :=
  match e with
  | ReceiveProps p => Props.noteId p = id
  | TimerFires _ => True
  end.

Definition isDeltaDecorations (c : Call) : bool :=
  match c with DeltaDecorations _ => true | _ => false end.

(** The lines a trace decorates, in order. *)
Definition decorated (t : list Call) : list Z :=
  omap (fun c => match c with DeltaDecorations l => Some l | _ => None end) t.



(** The line [i] of a model is there and blank. *)
Definition BlankLine (m : ITextModel.t) (i : Z) : Prop :=
  exists line, ITextModel.getLineContent m i = Some line /\ Observe.WhiteSpace line.

(** The line [i] of a model is there and holds more than white space. *)
Definition InkedLine (m : ITextModel.t) (i : Z) : Prop :=
  exists line, ITextModel.getLineContent m i = Some line /\ ~ Observe.WhiteSpace line.

End Scenario.

Module Words.

(** The ends of words: positions that hold no white space and are
    followed by white space or by the end of the text. *)
Fixpoint wordEnds (s : JS.str) : Z :=
  match s with
  | c :: s' =>
      (if negb (JS.isWhiteSpace c)
          && match s' with
             | d :: _ => JS.isWhiteSpace d
             | [] => true
             end
       then 1 else 0) + wordEnds s'
  | [] => 0
  end.

Definition isSurrogate (c : JS.unit16) : bool :=
  NoteInfo.isHighSurrogate c || NoteInfo.isLowSurrogate c.

(** [t] is [s] with some code units left out, none of them a surrogate. *)
Inductive Thinned : JS.str -> JS.str -> Prop :=
| thinned_nil : Thinned [] []
| thinned_keep c s t : Thinned s t -> Thinned (c :: s) (c :: t)
| thinned_drop c s t : isSurrogate c = false -> Thinned s t -> Thinned (c :: s) t.

Definition NoZeroWidth (s : JS.str) : Prop :=
  Forall (fun c => c <> NoteInfo.zeroWidthSpace) s.

(** A run of zero-width spaces. *)
Definition ZeroWidthRun (s : JS.str) : Prop :=
  Forall (fun c => c = NoteInfo.zeroWidthSpace) s.

(** Cutting a text between [a] and [b] cuts a surrogate pair in two. *)
Definition splitsPair (a b : JS.str) : bool :=
  match last a, head b with
  | Some h, Some l => NoteInfo.isHighSurrogate h && NoteInfo.isLowSurrogate l
  | _, _ => false
  end.

End Words.

(** * Properties *)

Module NoteInfoFacts.
Import NoteInfo.

Lemma low_not_high c : isLowSurrogate c = true -> isHighSurrogate c = false.
Proof.
  unfold isLowSurrogate, isHighSurrogate.
  rewrite andb_true_iff, andb_false_iff, !N.leb_le, !N.leb_gt. lia.
Qed.

Lemma count_step (s : JS.str) :
  JS.length (replaceSurrogatePairs s) = JS.length s - surrogatePairCount s
  /\ forall h, JS.length (replaceSurrogatePairs (h :: s))
               = JS.length (h :: s) - surrogatePairCount (h :: s).
Proof.
  unfold JS.length.
  induction s as [|l rest [IH1 IH2]].
  - split; [reflexivity|]. intros h. cbn. rewrite andb_false_r. reflexivity.
  - split; [apply IH2|]. intros h.
    change (replaceSurrogatePairs (h :: l :: rest))
      with (if isHighSurrogate h && isLowSurrogate l
            then underscore :: replaceSurrogatePairs rest
            else h :: replaceSurrogatePairs (l :: rest)).
    change (surrogatePairCount (h :: l :: rest))
      with ((if isHighSurrogate h && isLowSurrogate l then 1 else 0)
            + surrogatePairCount (l :: rest)).
    destruct (isHighSurrogate h && isLowSurrogate l) eqn:E.
    + apply andb_true_iff in E as [_ Hl].
      cbn [List.length surrogatePairCount].
      rewrite (low_not_high l Hl). cbn [andb].
      rewrite !Nat2Z.inj_succ. rewrite IH1. lia.
    + pose proof (IH2 l) as IH.
      cbn [List.length] in *. rewrite !Nat2Z.inj_succ in *. lia.
Qed.

(** C10. [characterCount] is the number of UTF-16 code units of the
    content with every surrogate pair (a high surrogate immediately
    followed by a low surrogate) counted once, and it is 0 for a null or
    undefined content and for the empty string. *)
Theorem characterCount_counts_pairs_once :
  (forall s : JS.str,
      characterCount (Some s) = JS.length s - surrogatePairCount s)
  /\ characterCount None = 0
  /\ characterCount (Some []) = 0.
Proof.
  split; [|split; reflexivity].
  intros s. apply (count_step s).
Qed.

End NoteInfoFacts.

(** ** Slices *)

Module JSFacts.

Lemma length_nonneg (s : JS.str) : 0 <= JS.length s.
Proof. unfold JS.length. lia. Qed.

Lemma relIndex_range (len i : Z) :
  0 <= len -> 0 <= JS.relIndex len i <= len.
Proof. unfold JS.relIndex. destruct (Z.ltb_spec i 0); lia. Qed.

(** A slice from the start is a prefix, whatever its end. *)
Lemma slice_from_start (s : JS.str) (e : Z) :
  JS.slice s 0 e = take (Z.to_nat (JS.relIndex (JS.length s) e)) s.
Proof.
  unfold JS.slice.
  pose proof (length_nonneg s) as Hlen.
  replace (JS.relIndex (JS.length s) 0) with 0
    by (unfold JS.relIndex; cbn; lia).
  cbn [Z.to_nat drop]. rewrite Z.sub_0_r. reflexivity.
Qed.

(** With a non-negative end it is the first [e] code units. *)
Lemma slice_take (s : JS.str) (e : Z) :
  0 <= e -> JS.slice s 0 e = take (Z.to_nat e) s.
Proof.
  intros He. rewrite slice_from_start. unfold JS.relIndex.
  destruct (Z.ltb_spec e 0) as [?|_]; [lia|].
  destruct (Z.le_gt_cases e (JS.length s)) as [Hle|Hgt].
  - rewrite Z.min_l by lia. reflexivity.
  - rewrite Z.min_r by lia. unfold JS.length in *.
    rewrite Nat2Z.id. rewrite !take_ge by lia. reflexivity.
Qed.

Lemma sliceFrom_drop (s : JS.str) (b : Z) :
  0 <= b -> JS.sliceFrom s b = drop (Z.to_nat b) s.
Proof.
  intros Hb. unfold JS.sliceFrom, JS.slice.
  pose proof (length_nonneg s) as Hlen.
  unfold JS.relIndex.
  destruct (Z.ltb_spec b 0) as [?|_]; [lia|].
  destruct (Z.ltb_spec (JS.length s) 0) as [?|_]; [lia|].
  rewrite Z.min_id. unfold JS.length in *.
  destruct (Z.le_gt_cases b (Z.of_nat (List.length s))) as [Hle|Hgt].
  - rewrite Z.min_l by lia. apply take_ge. rewrite length_drop. lia.
  - rewrite Z.min_r by lia. rewrite Nat2Z.id.
    rewrite !drop_ge by lia. apply take_nil.
Qed.

Lemma index_Some (s : JS.str) (i : Z) (c : JS.unit16) :
  JS.index s i = Some c -> 0 <= i /\ s !! Z.to_nat i = Some c.
Proof.
  unfold JS.index. destruct (Z.ltb_spec i 0); [discriminate|]. auto.
Qed.

(** Replacing the code unit at an offset that the string has. *)
Lemma splice_insert (s : JS.str) (i : Z) (c x : JS.unit16) :
  JS.index s i = Some c ->
  JS.slice s 0 i ++ [x] ++ JS.sliceFrom s (i + 1) = <[Z.to_nat i := x]> s.
Proof.
  intros Hi. apply index_Some in Hi as [Hi Hl].
  apply lookup_lt_Some in Hl.
  rewrite slice_take, sliceFrom_drop by lia.
  replace (Z.to_nat (i + 1)) with (S (Z.to_nat i)) by lia.
  symmetry. apply insert_take_drop. exact Hl.
Qed.

End JSFacts.

(** ** The mode on a note switch *)

Module ModeFacts.
Section WithCodec.
Context {codec : TaskTransform}.
Import NoteContentEditor.

(** C2. On a note switch (the incoming [noteId] differs from the one in
    the state), a content of at most 5000 characters puts the editor in
    full mode with the decoded content, and a longer one puts it in fast
    mode with the first [selectionEnd + 5000] characters of the raw
    content. *)
Theorem note_switch_mode (props : Props.t) (state : OwnState.t) :
  Some (Props.noteId props) <> OwnState.noteId state ->
  let content := Note.content (Props.note props) in
  let selEnd := selectionEnd (Props.editorSelection props) in
  let next := merge state (getDerivedStateFromProps props state) in
  OwnState.noteId next = Some (Props.noteId props)
  /\ (JS.length content <= 5000 ->
      OwnState.editor next = full
      /\ OwnState.content next = withCheckboxCharacters content)
  /\ (5000 < JS.length content -> 0 <= selEnd ->
      OwnState.editor next = fast
      /\ OwnState.content next = take (Z.to_nat (selEnd + 5000)) content).
Proof.
  intros Hswitch content selEnd next.
  subst next. unfold getDerivedStateFromProps.
  rewrite bool_decide_true by exact Hswitch.
  fold content. fold selEnd. cbn.
  split; [reflexivity|]. split.
  - intros Hsmall.
    destruct (Z.gtb_spec (JS.length content) 5000) as [?|_]; [lia|].
    split; reflexivity.
  - intros Hbig Hsel.
    destruct (Z.gtb_spec (JS.length content) 5000) as [_|?]; [|lia].
    split; [reflexivity|].
    apply JSFacts.slice_take. lia.
Qed.

End WithCodec.

(** The theorem at work: a short note opens in full mode, and a note of
    5001 characters with the selection ending at offset 3 opens in fast
    mode on its first 5003 characters, which is all of it. *)
Lemma note_switch_mode_witness :
  let small := Fixture.propsOf Fixture.note1 (0, 0, LTR) (JS.lit "- [ ] a") in
  let big := Fixture.propsOf Fixture.note2 (0, 3, LTR) Fixture.oversized in
  let s1 := NoteContentEditor.merge
              NoteContentEditor.initialState
              (NoteContentEditor.getDerivedStateFromProps (codec := SpecCodec.codec)
                 small NoteContentEditor.initialState) in
  let s2 := NoteContentEditor.merge s1
              (NoteContentEditor.getDerivedStateFromProps (codec := SpecCodec.codec)
                 big s1) in
  (OwnState.editor s1 = full
   /\ OwnState.content s1 = [Fixture.hyphen; Fixture.space; unchecked; Fixture.space; 0x61%N])
  /\ (OwnState.editor s2 = fast /\ OwnState.content s2 = Fixture.oversized).
Proof.
  intros small big s1 s2. split.
  - destruct (note_switch_mode (codec := SpecCodec.codec) small
                NoteContentEditor.initialState) as (_ & Hsmall & _).
    + discriminate.
    + destruct Hsmall as [Hm Hc]; [vm_compute; discriminate|].
      split; [exact Hm|]. etransitivity; [exact Hc|reflexivity].
  - destruct (note_switch_mode (codec := SpecCodec.codec) big s1) as (_ & _ & Hbig).
    + vm_compute. discriminate.
    + destruct Hbig as [Hm Hc]; [vm_compute; reflexivity|vm_compute; discriminate|].
      split; [exact Hm|]. etransitivity; [exact Hc|vm_compute; reflexivity].
Defined.

End ModeFacts.

(** ** The keyboard shortcut *)

Module KeyFacts.
Import NoteContentEditor Observe.

(** C8. With keyboard shortcuts enabled, Ctrl/Cmd+Shift+C dispatches
    insert-task and then stops the event's propagation and prevents its
    default handling; with the flag off, or on any other key
    combination, the listener makes no call at all. *)
Theorem handleKeys_insert_task (this : This.t) (event : KeyboardEvent.t) :
  (Props.keyboardShortcuts (This.props this) = true ->
   isInsertTaskChord event ->
   handleKeys this event
   = ([InsertTask; StopPropagation; PreventDefault], Normal (Some false)))
  /\ (Props.keyboardShortcuts (This.props this) = false ->
      handleKeys this event = ([], Normal None))
  /\ (~ isInsertTaskChord event -> trace (handleKeys this event) = []).
Proof.
  unfold handleKeys, isInsertTaskChord.
  destruct event as [code ctrl meta shift]; cbn.
  split; [|split].
  - intros -> ([-> | ->] & -> & ->); cbn; rewrite ?orb_true_r; reflexivity.
  - intros ->. reflexivity.
  - intros Hno.
    destruct (Props.keyboardShortcuts (This.props this)); [|reflexivity].
    cbn. destruct ((ctrl || meta) && shift && bool_decide ("KeyC"%string = code))
      eqn:E; [|reflexivity].
    exfalso. apply Hno.
    apply andb_true_iff in E as [E Hcode].
    apply andb_true_iff in E as [Hmod Hshift].
    apply bool_decide_eq_true in Hcode.
    apply orb_true_iff in Hmod. auto.
Qed.

Lemma handleKeys_insert_task_witness :
  let this := Fixture.opened (0, 0, LTR) Fixture.item in
  let chord := {| KeyboardEvent.code := "KeyC"; KeyboardEvent.ctrlKey := false;
                  KeyboardEvent.metaKey := true; KeyboardEvent.shiftKey := true |} in
  let plain := {| KeyboardEvent.code := "KeyC"; KeyboardEvent.ctrlKey := false;
                  KeyboardEvent.metaKey := false; KeyboardEvent.shiftKey := true |} in
  handleKeys this chord
  = ([InsertTask; StopPropagation; PreventDefault], Normal (Some false))
  /\ trace (handleKeys this plain) = [].
Proof.
  intros this chord plain. split.
  - apply (handleKeys_insert_task this chord); [reflexivity|].
    split; [right; reflexivity|split; reflexivity].
  - apply (handleKeys_insert_task this plain).
    intros ([Hc | Hm] & _); discriminate.
Defined.

End KeyFacts.

(** ** Selection changes in the surface *)

Module SelectionFacts.
Import NoteContentEditor Observe.

(** C6. A selection change in the surface whose reason is neither undo
    nor redo dispatches one persist-selection request with the note id,
    the offsets of the selection's start and end, and the direction RTL
    exactly when the surface reports it so (LTR otherwise); a change
    whose reason is undo or redo makes no call. *)
Theorem selection_change_persisted (editor : IStandaloneCodeEditor.t)
        (this : This.t) (e : CursorSelectionChangedEvent.t) :
  let reason := CursorSelectionChangedEvent.reason e in
  let sel := CursorSelectionChangedEvent.selection e in
  let noteId := Props.noteId (This.props this) in
  (reason = CursorChangeReason.Undo \/ reason = CursorChangeReason.Redo ->
   onDidChangeCursorSelection editor this e = ([], Normal tt))
  /\ (reason <> CursorChangeReason.Undo -> reason <> CursorChangeReason.Redo ->
      exists start end_ direction,
        dispatches (trace (onDidChangeCursorSelection editor this e))
        = [StoreEditorSelection noteId start end_ direction]
        /\ completion (onDidChangeCursorSelection editor this e) = Normal tt
        /\ (direction = RTL <-> Selection.getDirection sel = SelectionDirection.RTL)
        /\ (direction = LTR <-> Selection.getDirection sel = SelectionDirection.LTR)
        /\ forall model,
            IStandaloneCodeEditor.getModel editor = Some model ->
            start = Some (ITextModel.getOffsetAt model (Selection.getStartPosition sel))
            /\ end_ = Some (ITextModel.getOffsetAt model (Selection.getEndPosition sel))).
Proof.
  intros reason sel noteId. unfold onDidChangeCursorSelection.
  fold reason. fold sel. fold noteId. split.
  - intros [-> | ->]; reflexivity.
  - intros Hu Hr.
    replace (isUndoOrRedo reason) with false
      by (destruct reason; try reflexivity; congruence).
    destruct editor as [[model|]]; cbn.
    + eexists _, _, _. split; [reflexivity|]. split; [reflexivity|].
      split; [|split].
      * destruct (Selection.getDirection sel); split; congruence.
      * destruct (Selection.getDirection sel); split; congruence.
      * intros m [= <-]. split; reflexivity.
    + eexists _, _, _. split; [reflexivity|]. split; [reflexivity|].
      split; [|split].
      * destruct (Selection.getDirection sel); split; congruence.
      * destruct (Selection.getDirection sel); split; congruence.
      * intros m [=].
Qed.

(** On ["- item"], selecting ["item"] backwards is persisted as
    [(2, 6, RTL)]. *)
Lemma selection_change_persisted_witness :
  let this := Fixture.opened (0, 0, LTR) Fixture.item in
  let e := {| CursorSelectionChangedEvent.reason := CursorChangeReason.Explicit;
              CursorSelectionChangedEvent.selection :=
                {| Selection.getStartPosition :=
                     {| Position.lineNumber := 1; Position.column := 3 |};
                   Selection.getEndPosition :=
                     {| Position.lineNumber := 1; Position.column := 7 |};
                   Selection.getDirection := SelectionDirection.RTL |} |} in
  dispatches (trace (onDidChangeCursorSelection
                       (ReferenceModel.editorOf Fixture.item) this e))
  = [StoreEditorSelection Fixture.note1 (Some 2) (Some 6) RTL].
Proof.
  intros this e.
  destruct (selection_change_persisted (ReferenceModel.editorOf Fixture.item) this e)
    as [_ Hkeep].
  destruct Hkeep as (start & end_ & direction & Hd & _ & Hrtl & _ & Hoff);
    [discriminate|discriminate|].
  destruct (Hoff _ eq_refl) as [Hs He].
  rewrite Hd. f_equal. f_equal.
  - rewrite Hs. reflexivity.
  - rewrite He. reflexivity.
  - apply Hrtl. reflexivity.
Defined.

End SelectionFacts.

(** ** Toggling a checkbox with the mouse *)

Module MouseFacts.
Section WithCodec.
Context {codec : TaskTransform}.
Import NoteContentEditor Observe.

(** C7. A mouse-down that resolves to an offset of the displayed
    content holding the unchecked sentinel dispatches one edit-note
    request whose content is the displayed content with that one
    character replaced by the checked sentinel, re-encoded to checkbox
    syntax; the checked sentinel is replaced by the unchecked one in the
    same way; on any other character nothing is dispatched. *)
Theorem mouse_down_toggles (model : ITextModel.t) (this : This.t)
        (range : Range.t) :
  let editor := {| IStandaloneCodeEditor.getModel := Some model |} in
  let content := OwnState.content (This.state this) in
  let noteId := Props.noteId (This.props this) in
  let offset :=
    ITextModel.getOffsetAt model
      {| Position.lineNumber := Range.startLineNumber range;
         Position.column := Range.startColumn range |} in
  let sent := dispatches (trace (onMouseDown editor this (Some range))) in
  (JS.index content offset = Some unchecked ->
   sent = [EditNote noteId
             (withCheckboxSyntax (<[Z.to_nat offset := checked]> content))])
  /\ (JS.index content offset = Some checked ->
      sent = [EditNote noteId
                (withCheckboxSyntax (<[Z.to_nat offset := unchecked]> content))])
  /\ (JS.index content offset <> Some unchecked ->
      JS.index content offset <> Some checked ->
      sent = []).
Proof.
  intros editor content noteId offset sent.
  subst sent. unfold onMouseDown. cbn.
  fold content. fold noteId. fold offset.
  split; [|split].
  - intros Hu. rewrite bool_decide_true by exact Hu. cbn.
    change (checked :: JS.sliceFrom content (offset + 1))
      with ([checked] ++ JS.sliceFrom content (offset + 1)).
    rewrite (JSFacts.splice_insert content offset unchecked checked Hu).
    reflexivity.
  - intros Hc.
    rewrite bool_decide_false by (rewrite Hc; discriminate).
    rewrite bool_decide_true by exact Hc. cbn.
    change (unchecked :: JS.sliceFrom content (offset + 1))
      with ([unchecked] ++ JS.sliceFrom content (offset + 1)).
    rewrite (JSFacts.splice_insert content offset checked unchecked Hc).
    reflexivity.
  - intros Hu Hc. rewrite !bool_decide_false by assumption. reflexivity.
Qed.

End WithCodec.

(** The spec's example: on the display text of ["- [ ] task"], a
    mouse-down on the checkbox sends ["- [x] task"]; a mouse-down on the
    hyphen sends nothing. *)
Lemma mouse_down_toggles_witness :
  let shown := SpecCodec.decode (JS.lit "- [ ] task") in
  let this := Fixture.opened (0, 0, LTR) shown in
  let at_ col := {| Range.startLineNumber := 1; Range.startColumn := col;
                    Range.endLineNumber := 1; Range.endColumn := col |} in
  let editor := {| IStandaloneCodeEditor.getModel := Some (ReferenceModel.ofValue shown) |} in
  Observe.dispatches
    (trace (NoteContentEditor.onMouseDown (codec := SpecCodec.codec)
              editor this (Some (at_ 3))))
  = [EditNote Fixture.note1 (JS.lit "- [x] task")]
  /\ Observe.dispatches
       (trace (NoteContentEditor.onMouseDown (codec := SpecCodec.codec)
                 editor this (Some (at_ 1))))
     = [].
Proof.
  intros shown this at_ editor. split.
  - destruct (mouse_down_toggles (codec := SpecCodec.codec)
                (ReferenceModel.ofValue shown) this (at_ 3)) as (Hu & _ & _).
    etransitivity; [apply Hu; reflexivity|reflexivity].
  - destruct (mouse_down_toggles (codec := SpecCodec.codec)
                (ReferenceModel.ofValue shown) this (at_ 1)) as (_ & _ & Hn).
    apply Hn; vm_compute; discriminate.
Defined.

End MouseFacts.

(** ** Traces of sequenced computations *)

Module EffFacts.

Lemma trace_bind {A B} (m : Eff A) (f : A -> Eff B) :
  trace (bind m f)
  = trace m ++ match completion m with
               | Normal a => trace (f a)
               | Throw _ => []
               end.
Proof.
  destruct m as [t [a|e]]; cbn.
  - destruct (f a); reflexivity.
  - rewrite app_nil_r. reflexivity.
Qed.

Lemma completion_bind {A B} (m : Eff A) (f : A -> Eff B) :
  completion (bind m f)
  = match completion m with
    | Normal a => completion (f a)
    | Throw e => Throw e
    end.
Proof.
  destruct m as [t [a|e]]; cbn; [destruct (f a)|]; reflexivity.
Qed.

Lemma offsetsAsked_app (t1 t2 : list Call) :
  Observe.offsetsAsked (t1 ++ t2)
  = Observe.offsetsAsked t1 ++ Observe.offsetsAsked t2.
Proof. apply omap_app. Qed.

End EffFacts.

(** ** Applying the persisted selection to the surface *)

Module StoredSelectionFacts.
Import NoteContentEditor Observe.

Lemma decorateLoop_asks_no_offset (model : ITextModel.t) (n : nat) (i : Z) :
  offsetsAsked (trace (decorateLoop model n i)) = [].
Proof.
  revert i. induction n as [|n IH]; intros i; [reflexivity|].
  cbn [decorateLoop]. rewrite EffFacts.trace_bind. cbn.
  rewrite EffFacts.trace_bind. unfold getLineContent.
  destruct (ITextModel.getLineContent model i) as [line|]; cbn; [|reflexivity].
  destruct (0 <? JS.length (JS.trim line)); [reflexivity|]. apply IH.
Qed.

Lemma decorateFirstLine_asks_no_offset (editor : IStandaloneCodeEditor.t) :
  offsetsAsked (trace (decorateFirstLine editor)) = [].
Proof.
  unfold decorateFirstLine.
  destruct (IStandaloneCodeEditor.getModel editor);
    [apply decorateLoop_asks_no_offset|reflexivity].
Qed.

(** C5, on the code: when the editor has no model, [editorReady] does
    not leave the surface alone and does not complete: it still calls
    [setSelection], with undefined coordinates, and then throws a
    [TypeError] on reading [start.lineNumber]; [componentDidUpdate]
    likewise calls [setSelection] with undefined coordinates. *)
Theorem unresolved_position_is_not_a_noop (this : This.t) (monaco : Monaco)
        (id : EntityId) (s e : Z) (d : Direction) (content : JS.str) :
  snd (editorReady this ReferenceModel.detached monaco)
  = ([OnDidChangeModelContent; SetDocumentOnCopy;
      SetSelection None None None None
        (toSelectionDirection
           (selectionDirection (Props.editorSelection (This.props this))))],
     Throw TypeError)
  /\ componentDidUpdate
       (withEditor (Fixture.opened (s, e, d) content) ReferenceModel.detached monaco)
       (Fixture.propsOf id (s + 1, e, d) content)
     = ([SetSelection None None None None (toSelectionDirection d)], Normal tt).
Proof.
  split.
  - unfold editorReady. cbn.
    destruct (Props.editorSelection (This.props this)) as [[s0 e0] d0].
    reflexivity.
  - unfold componentDidUpdate. cbn.
    rewrite bool_decide_true by lia. reflexivity.
Qed.

(** C4, as stated, fails: on the two-character note ["ab"] with the
    persisted selection (0, 10), [editorReady] asks the surface to
    convert the offset 10, which lies outside [0, 2]. *)
Lemma stale_offset_reaches_surface :
  let value := JS.lit "ab" in
  let this := Fixture.opened (0, 10, LTR) value in
  let asked :=
    offsetsAsked
      (trace (snd (editorReady this (ReferenceModel.editorOf value) monacoApi))) in
  JS.length value = 2
  /\ asked = [0; 10]
  /\ ~ Forall (fun o => 0 <= o <= JS.length value) asked.
Proof.
  intros value this asked.
  split; [reflexivity|]. split; [reflexivity|].
  intros Hall. apply Forall_cons in Hall as [_ Hall].
  apply Forall_cons in Hall as [Hten _]. vm_compute in Hten.
  destruct Hten as [_ Hle]. apply Hle. reflexivity.
Qed.

Section WithCodec.
Context {codec : TaskTransform}.

(** C4, amended. The component never clamps the persisted offsets:
    [editorReady] and [componentDidUpdate] hand the persisted start and
    end to the surface's offset conversion as they are; the one place
    where the component itself cuts the content by a persisted offset,
    the fast-mode display on a note switch, yields a prefix of the
    content. *)
Theorem persisted_offsets_handed_over (this : This.t) (model : ITextModel.t)
        (monaco : Monaco) (prevProps : Props.t) (state : OwnState.t) :
  let editor := {| IStandaloneCodeEditor.getModel := Some model |} in
  let props := This.props this in
  let sel := Props.editorSelection props in
  (completion (decorateFirstLine editor) = Normal tt ->
   offsetsAsked (trace (snd (editorReady this editor monaco)))
   = [selectionStart sel; selectionEnd sel])
  /\ (This.editor this = Some editor ->
      OwnState.editor (This.state this) = full ->
      Props.editorSelection prevProps <> sel ->
      offsetsAsked (trace (componentDidUpdate this prevProps))
      = [selectionStart sel; selectionEnd sel])
  /\ (Some (Props.noteId props) <> OwnState.noteId state ->
      5000 < JS.length (Note.content (Props.note props)) ->
      OwnState.content (merge state (getDerivedStateFromProps props state))
      `prefix_of` Note.content (Props.note props)).
Proof.
  intros editor props sel. split; [|split].
  - intros Hdec. unfold editorReady. cbn [snd].
    rewrite EffFacts.trace_bind, EffFacts.offsetsAsked_app.
    rewrite decorateFirstLine_asks_no_offset, Hdec. cbn [app].
    change (Props.editorSelection (This.props (withEditor this editor monaco)))
      with sel.
    destruct sel as [[s e] d]. cbn.
    destruct (ITextModel.getPositionAt model s);
      destruct (ITextModel.getPositionAt model e); reflexivity.
  - intros Hed Hfull Hsel. unfold componentDidUpdate.
    fold props. fold sel. rewrite Hed, Hfull.
    destruct (Props.editorSelection prevProps) as [[ps pe] pd].
    destruct sel as [[s e] d]. cbn.
    assert ((bool_decide (ps <> s) || bool_decide (pe <> e)
             || bool_decide (pd <> d)) = true) as ->.
    { destruct (decide (ps = s)) as [->|?];
        [|rewrite bool_decide_true by assumption; reflexivity].
      destruct (decide (pe = e)) as [->|?];
        [|rewrite (bool_decide_true (pe <> e)) by assumption;
          apply orb_true_iff; left; apply orb_true_r].
      rewrite (bool_decide_true (pd <> d)) by congruence.
      apply orb_true_r. }
    cbn.
    destruct (ITextModel.getPositionAt model s);
      destruct (ITextModel.getPositionAt model e); reflexivity.
  - intros Hswitch Hbig. unfold getDerivedStateFromProps.
    rewrite bool_decide_true by exact Hswitch.
    destruct (Z.gtb_spec (JS.length (Note.content (Props.note props))) 5000)
      as [_|?]; [|lia].
    cbn. rewrite JSFacts.slice_from_start.
    eexists. symmetry. apply take_drop.
Qed.

End WithCodec.

(** The theorem on the two-character note ["ab"] with the persisted
    selection (0, 10), and on a switch into a note of 5001 characters. *)
Lemma persisted_offsets_handed_over_witness :
  let value := JS.lit "ab" in
  let this := Fixture.opened (0, 10, LTR) value in
  let model := ReferenceModel.ofValue value in
  let big := Fixture.propsOf Fixture.note1 (0, 10, LTR) Fixture.oversized in
  offsetsAsked (trace (snd (editorReady this (ReferenceModel.editorOf value) monacoApi)))
  = [0; 10]
  /\ offsetsAsked
       (trace (componentDidUpdate this (Fixture.propsOf Fixture.note1 (0, 0, LTR) value)))
     = [0; 10]
  /\ OwnState.content
       (merge initialState
          (getDerivedStateFromProps (codec := SpecCodec.codec) big initialState))
     `prefix_of` Fixture.oversized.
Proof.
  intros value this model big. split; [|split].
  - destruct (persisted_offsets_handed_over (codec := SpecCodec.codec) this model
                monacoApi (This.props this) initialState) as (Hready & _ & _).
    apply Hready. reflexivity.
  - destruct (persisted_offsets_handed_over (codec := SpecCodec.codec) this model
                monacoApi (Fixture.propsOf Fixture.note1 (0, 0, LTR) value)
                initialState) as (_ & Hupdate & _).
    apply Hupdate; [reflexivity|reflexivity|discriminate].
  - destruct (persisted_offsets_handed_over (codec := SpecCodec.codec)
                (withProps this big) model monacoApi big initialState)
      as (_ & _ & Hfast).
    apply Hfast; [discriminate|vm_compute; reflexivity].
Defined.

End StoredSelectionFacts.

(** ** The boot timer *)

Module TimerFacts.
Import NoteContentEditor Observe.

Lemma find_armed (l : list (TimerId * EntityId)) (id : TimerId) (c : EntityId) :
  Forall (fun tm => tm.1 <> id) l ->
  list_find (fun tm => tm.1 = id) (l ++ [(id, c)]) = Some (List.length l, (id, c)).
Proof.
  induction 1 as [|tm l Hne _ IH]; cbn.
  - rewrite decide_True by reflexivity. reflexivity.
  - rewrite decide_False by exact Hne. rewrite IH. reflexivity.
Qed.

Lemma cleared_gone (w : Window.t) (id : TimerId) :
  id ∉ (Window.timers (Window.clearTimeout w id)).*1.
Proof.
  cbn. intros Hin. apply list_elem_of_fmap in Hin as (tm & -> & Hin).
  apply list_elem_of_filter in Hin as [Hne _]. apply Hne. reflexivity.
Qed.

Lemma componentDidUpdate_no_timer (this : This.t) (prev : Props.t) :
  timersArmed (trace (componentDidUpdate this prev)) = 0%nat
  /\ timersCancelled (trace (componentDidUpdate this prev)) = 0%nat.
Proof.
  unfold componentDidUpdate.
  destruct (Props.editorSelection prev) as [[ps pe] pd].
  destruct (Props.editorSelection (This.props this)) as [[s e] d].
  destruct (This.editor this) as [[[model|]]|]; [| |split; reflexivity].
  - destruct (isFull _ && _); [|split; reflexivity]. cbn.
    destruct (ITextModel.getPositionAt model s);
      destruct (ITextModel.getPositionAt model e); split; reflexivity.
  - destruct (isFull _ && _); split; reflexivity.
Qed.

Section WithCodec.
Context {codec : TaskTransform}.

Lemma deriveState_synced (this : This.t) : Synced (deriveState this).
Proof.
  unfold Synced, deriveState, getDerivedStateFromProps. cbn.
  destruct (decide (Some (Props.noteId (This.props this))
                    <> OwnState.noteId (This.state this))) as [Hne|Heq].
  - rewrite bool_decide_true by exact Hne. reflexivity.
  - rewrite bool_decide_false by exact Heq.
    apply dec_stable in Heq.
    destruct (negb _); cbn; [|symmetry; exact Heq].
    destruct (OwnState.noteId (This.state this)); congruence.
Qed.

Lemma updates_keep (this : This.t) (ps : list Props.t) :
  Synced this ->
  Synced (fst (updates this ps))
  /\ This.bootTimer (fst (updates this ps)) = This.bootTimer this
  /\ timersArmed (snd (updates this ps)) = 0%nat
  /\ timersCancelled (snd (updates this ps)) = 0%nat.
Proof.
  revert this. induction ps as [|p ps IH]; intros this Hs.
  - repeat split; auto.
  - cbn [updates fst snd].
    destruct (IH (fst (update this p))) as (IHs & IHb & IHa & IHc).
    { apply deriveState_synced. }
    destruct (componentDidUpdate_no_timer
                (deriveState (withProps this p)) (This.props this)) as [Ha Hc].
    split; [exact IHs|]. split; [rewrite IHb; reflexivity|].
    unfold timersArmed, timersCancelled in *.
    cbn [update snd]. rewrite !List.filter_app, !List.length_app.
    rewrite Ha, Hc, IHa, IHc. split; reflexivity.
Qed.

(** The boot callback on an instance whose state names the note that the
    callback captured. *)
Lemma bootCallback_promotes (this : This.t) :
  Synced this ->
  let this' := bootCallback (Props.noteId (This.props this)) this in
  OwnState.editor (This.state this') = full
  /\ OwnState.content (This.state this')
     = withCheckboxCharacters (Note.content (Props.note (This.props this))).
Proof.
  intros Hs. unfold bootCallback.
  rewrite bool_decide_true by reflexivity.
  unfold setState, deriveState, getDerivedStateFromProps. cbn.
  rewrite Hs. rewrite bool_decide_false by (intros Hne; apply Hne; reflexivity).
  destruct (negb _); cbn; split; reflexivity.
Qed.

(** C3, amended. One promotion timer is armed, with the delay of 120,
    when the component mounts. A later note switch does not cancel it.
    When the timer fires, after any number of prop changes, the editor is
    promoted to full mode with the complete decoded content if the note
    open at the mount is the note open then, and the callback leaves the
    instance as it is otherwise. Unmounting cancels the timer. *)
Theorem boot_timer_lifecycle (props : Props.t) (w : Window.t)
        (later : list Props.t) :
  freshHandles w ->
  let mounted := mount props w in
  let calls := snd mounted in
  let w1 := snd (fst mounted) in
  let id := Window.nextTimerId w in
  let this := fst (updates (fst (fst mounted)) later) in
  let updateCalls := snd (updates (fst (fst mounted)) later) in
  calls = [AddKeydownListener; SetTimeout SPEED_DELAY id]
  /\ timersArmed calls = 1%nat
  /\ This.bootTimer this = Some id
  /\ timersCancelled updateCalls = 0%nat
  /\ (Props.noteId (This.props this) = Props.noteId props ->
      let fired := fireTimer this w1 id in
      OwnState.editor (This.state (fst fired)) = full
      /\ OwnState.content (This.state (fst fired))
         = withCheckboxCharacters (Note.content (Props.note (This.props this)))
      /\ id ∉ (Window.timers (snd fired)).*1)
  /\ (Props.noteId (This.props this) <> Props.noteId props ->
      fst (fireTimer this w1 id) = this)
  /\ snd (componentWillUnmount this w1) = [ClearTimeout id; RemoveKeydownListener]
  /\ id ∉ (Window.timers (fst (componentWillUnmount this w1))).*1.
Proof.
  intros Hfresh mounted calls w1 id this updateCalls.
  destruct (updates_keep (fst (fst mounted)) later) as (Hs & Hb & Ha & Hc).
  { apply (deriveState_synced (construct props)). }
  fold this in Hs, Hb. fold updateCalls in Ha, Hc.
  assert (This.bootTimer this = Some id) as Hboot by (rewrite Hb; reflexivity).
  assert (list_find (fun tm => tm.1 = id) (Window.timers w1)
          = Some (List.length (Window.timers w), (id, Props.noteId props))) as Hfind.
  { apply find_armed. eapply Forall_impl; [exact Hfresh|].
    intros tm Hlt Heq. apply (Pos.lt_irrefl id).
    rewrite <- Heq at 1. exact Hlt. }
  split; [reflexivity|]. split; [reflexivity|]. split; [exact Hboot|].
  split; [exact Hc|]. split; [|split; [|split]].
  - intros Hsame. unfold fireTimer. rewrite Hfind. cbn [fst snd].
    rewrite <- Hsame.
    destruct (bootCallback_promotes this Hs) as [Hfull Hcontent].
    split; [exact Hfull|]. split; [exact Hcontent|]. apply cleared_gone.
  - intros Hother. unfold fireTimer. rewrite Hfind. cbn [fst].
    unfold bootCallback. rewrite bool_decide_false by congruence. reflexivity.
  - unfold componentWillUnmount. rewrite Hboot. reflexivity.
  - unfold componentWillUnmount. rewrite Hboot. cbn [fst].
    apply (cleared_gone w1 id).
Qed.

End WithCodec.

(** The theorem on a note of 5001 characters: mounted on it, the editor
    is in fast mode; after a switch to another note and back, the timer
    promotes it to full mode. *)
Lemma boot_timer_lifecycle_witness :
  let big := Fixture.propsOf Fixture.note1 (0, 0, LTR) Fixture.oversized in
  let other := Fixture.propsOf Fixture.note2 (0, 0, LTR) Fixture.item in
  let mounted := mount (codec := SpecCodec.codec) big Fixture.window0 in
  let this := fst (updates (codec := SpecCodec.codec) (fst (fst mounted)) [other; big]) in
  OwnState.editor (This.state (fst (fst mounted))) = fast
  /\ OwnState.editor (This.state this) = fast
  /\ OwnState.editor
       (This.state (fst (fireTimer (codec := SpecCodec.codec) this
                           (snd (fst mounted)) 1%positive))) = full.
Proof.
  intros big other mounted this.
  split; [vm_compute; reflexivity|]. split; [vm_compute; reflexivity|].
  destruct (boot_timer_lifecycle (codec := SpecCodec.codec) big Fixture.window0
              [other; big]) as (_ & _ & _ & _ & Hfire & _).
  - apply Forall_nil_2.
  - destruct Hfire as (Hfull & _ & _); [reflexivity|]. exact Hfull.
Defined.

(** C3, as stated, fails. The component is mounted on a short note and
    its boot timer has run; a switch into a note of 5001 characters then
    puts the editor in fast mode and arms no timer, and no timer is
    pending. And a switch made while the boot timer is pending cancels no
    timer. *)
Lemma note_switch_arms_no_timer :
  let small := Fixture.propsOf Fixture.note1 (0, 0, LTR) Fixture.item in
  let big := Fixture.propsOf Fixture.note2 (0, 0, LTR) Fixture.oversized in
  let mounted := mount (codec := SpecCodec.codec) small Fixture.window0 in
  let fired := fireTimer (codec := SpecCodec.codec) (fst (fst mounted))
                 (snd (fst mounted)) 1%positive in
  let switched := update (codec := SpecCodec.codec) (fst fired) big in
  let early := update (codec := SpecCodec.codec) (fst (fst mounted)) big in
  OwnState.editor (This.state (fst fired)) = full
  /\ Window.timers (snd fired) = []
  /\ OwnState.editor (This.state (fst switched)) = fast
  /\ timersArmed (trace (snd switched)) <> 1%nat
  /\ Window.timers (snd (fst mounted)) = [(1%positive, Fixture.note1)]
  /\ timersCancelled (trace (snd early)) <> 1%nat.
Proof.
  intros small big mounted fired switched early.
  repeat split; try (vm_compute; reflexivity); vm_compute; discriminate.
Qed.

End TimerFacts.

(** ** The patterns of the list completion, in words *)

Module PatternFacts.
Import NoteContentEditor Observe.

Lemma trimStart_nil (s : JS.str) : JS.trimStart s = [] <-> WhiteSpace s.
Proof.
  unfold WhiteSpace. induction s as [|c s IH]; cbn.
  - split; [constructor|reflexivity].
  - destruct (JS.isWhiteSpace c) eqn:E.
    + rewrite IH. split; [constructor; assumption|].
      intros Hall. apply Forall_cons in Hall as [_ Hall]. exact Hall.
    + split; [discriminate|].
      intros Hall. apply Forall_cons in Hall as [Hc _]. congruence.
Qed.

Lemma trimStart_head (s : JS.str) (c : JS.unit16) :
  head (JS.trimStart s) = Some c -> JS.isWhiteSpace c = false.
Proof.
  induction s as [|a s IH]; cbn; [discriminate|].
  destruct (JS.isWhiteSpace a) eqn:E; [exact IH|].
  cbn. intros [= <-]. exact E.
Qed.

Lemma trim_nil (s : JS.str) : JS.trim s = [] <-> WhiteSpace s.
Proof.
  unfold JS.trim, JS.trimEnd. split.
  - intros Htrim. apply trimStart_nil.
    destruct (JS.trimStart s) as [|c t] eqn:E; [reflexivity|].
    exfalso.
    assert (JS.isWhiteSpace c = false) as Hc
        by (apply (trimStart_head s); rewrite E; reflexivity).
    apply (f_equal (@rev _)) in Htrim. rewrite rev_involutive in Htrim.
    apply trimStart_nil in Htrim.
    unfold WhiteSpace in Htrim. rewrite Forall_forall in Htrim.
    specialize (Htrim c). rewrite Hc in Htrim.
    assert (true = false -> False) as Hno by discriminate.
    apply Hno. symmetry. apply Htrim.
    apply list_elem_of_In. apply -> in_rev. left. reflexivity.
  - intros Hws. apply trimStart_nil in Hws. rewrite Hws. reflexivity.
Qed.

Lemma LF_whiteSpace : JS.isWhiteSpace JS.LF = true.
Proof. reflexivity. Qed.

Lemma isNewlineChange_spec (c : ChangeEvent.Change) :
  isNewlineChange c = true <-> NewlineText (ChangeEvent.text c).
Proof.
  unfold isNewlineChange, NewlineText, JS.eqb.
  rewrite andb_true_iff, !bool_decide_eq_true, trim_nil.
  destruct (ChangeEvent.text c) as [|a ws]; cbn.
  - split; [intros [[=] _]|intros (ws & [=] & _)].
  - split.
    + intros [[= ->] Hall]. exists ws. split; [reflexivity|].
      apply Forall_cons in Hall as [_ Hall]. exact Hall.
    + intros (ws' & [= -> ->] & Hall). split; [reflexivity|].
      constructor; [exact LF_whiteSpace|exact Hall].
Qed.

Lemma find_first_newline (changes : list ChangeEvent.Change)
      (change : ChangeEvent.Change) :
  find isNewlineChange changes = Some change <-> FirstNewlineChange changes change.
Proof.
  unfold FirstNewlineChange. induction changes as [|c cs IH]; cbn.
  - split; [discriminate|].
    intros (before & after & Heq & _). destruct before; discriminate.
  - destruct (isNewlineChange c) eqn:E.
    + split.
      * intros [= <-]. exists [], cs.
        split; [reflexivity|]. split; [constructor|].
        apply isNewlineChange_spec. exact E.
      * intros ([|b before] & after & Heq & Hbefore & Hnl).
        -- injection Heq as -> _. reflexivity.
        -- injection Heq as -> _. apply Forall_cons in Hbefore as [Hb _].
           exfalso. apply Hb. apply isNewlineChange_spec. exact E.
    + rewrite IH. split.
      * intros (before & after & -> & Hbefore & Hnl).
        exists (c :: before), after. split; [reflexivity|]. split; [|exact Hnl].
        constructor; [|exact Hbefore].
        rewrite <- isNewlineChange_spec, E. discriminate.
      * intros ([|b before] & after & Heq & Hbefore & Hnl).
        -- injection Heq as <- _. apply isNewlineChange_spec in Hnl. congruence.
        -- injection Heq as _ ->. apply Forall_cons in Hbefore as [_ Hbefore].
           exists before, after. auto.
Qed.

Lemma find_no_newline (changes : list ChangeEvent.Change) :
  find isNewlineChange changes = None
  <-> Forall (fun c => ~ NewlineText (ChangeEvent.text c)) changes.
Proof.
  induction changes as [|c cs IH]; cbn.
  - split; [constructor|reflexivity].
  - destruct (isNewlineChange c) eqn:E.
    + split; [discriminate|]. intros Hall. apply Forall_cons in Hall as [Hc _].
      exfalso. apply Hc. apply isNewlineChange_spec. exact E.
    + rewrite IH. split.
      * intros Hall. constructor; [|exact Hall].
        rewrite <- isNewlineChange_spec, E. discriminate.
      * intros Hall. apply Forall_cons in Hall as [_ Hall]. exact Hall.
Qed.

Lemma testBlank_spec (line : JS.str) : testBlank line = true <-> WhiteSpace line.
Proof.
  unfold testBlank, WhiteSpace. rewrite forallb_forall, Forall_forall.
  split; intros Hall c Hc; apply Hall; apply list_elem_of_In; exact Hc.
Qed.

(** [spanWhiteSpace] splits where the leading white space ends. *)
Lemma spanWhiteSpace_split (ws rest : JS.str) :
  WhiteSpace ws ->
  (forall c, head rest = Some c -> JS.isWhiteSpace c = false) ->
  spanWhiteSpace (ws ++ rest) = (ws, rest).
Proof.
  intros Hws Hrest. induction Hws as [|c ws Hc _ IH]; cbn.
  - destruct rest as [|r rest]; [reflexivity|].
    cbn. rewrite (Hrest r eq_refl). reflexivity.
  - rewrite Hc, IH. reflexivity.
Qed.

Lemma spanWhiteSpace_spec (s : JS.str) :
  s = (spanWhiteSpace s).1 ++ (spanWhiteSpace s).2
  /\ WhiteSpace (spanWhiteSpace s).1
  /\ forall c, head (spanWhiteSpace s).2 = Some c -> JS.isWhiteSpace c = false.
Proof.
  unfold WhiteSpace. induction s as [|a s (IH1 & IH2 & IH3)]; cbn.
  - split; [reflexivity|]. split; [constructor|discriminate].
  - destruct (JS.isWhiteSpace a) eqn:E.
    + destruct (spanWhiteSpace s) as [ws rest]. cbn in *.
      split; [congruence|]. split; [constructor; assumption|exact IH3].
    + cbn. split; [reflexivity|]. split; [constructor|].
      intros c [= <-]. exact E.
Qed.

Lemma marker_not_whiteSpace (m : JS.unit16) :
  isListMarker m = true -> JS.isWhiteSpace m = false.
Proof.
  unfold isListMarker. rewrite !orb_true_iff, !N.eqb_eq.
  intros [[[[[-> | ->] | ->] | ->] | ->] | ->]; reflexivity.
Qed.

(** The pattern of the previous line, in words. *)
Lemma execPrevList_spec (line prefix : JS.str) :
  execPrevList line = Some prefix <-> ListPrefix line prefix.
Proof.
  unfold execPrevList, ListPrefix. split.
  - destruct (spanWhiteSpace_spec line) as (Hline & Hindent & _).
    destruct (spanWhiteSpace line) as [indent rest]. cbn in Hline, Hindent.
    destruct rest as [|m rest']; [discriminate|].
    destruct (isListMarker m) eqn:Hm; [|discriminate].
    destruct (spanWhiteSpace_spec rest') as (Hrest & Hgap & Hafter).
    destruct (spanWhiteSpace rest') as [gap after]. cbn in Hrest, Hgap, Hafter.
    destruct gap as [|g gap]; [discriminate|].
    intros [= <-]. exists indent, m, (g :: gap), after.
    rewrite Hline, Hrest. repeat split; auto.
  - intros (indent & m & gap & rest & -> & Hindent & Hm & Hne & Hgap & Hrest & ->).
    rewrite (spanWhiteSpace_split indent (m :: gap ++ rest) Hindent).
    + rewrite Hm, (spanWhiteSpace_split gap rest Hgap Hrest).
      destruct gap; [contradiction|reflexivity].
    + intros c [= <-]. apply marker_not_whiteSpace. exact Hm.
Qed.

Lemma ListPrefix_nonempty (line prefix : JS.str) :
  ListPrefix line prefix -> prefix <> [].
Proof.
  intros (indent & m & gap & rest & _ & _ & _ & _ & _ & _ & ->).
  destruct indent; discriminate.
Qed.

End PatternFacts.

(** ** List completion on a newline *)

Module AutolistFacts.
Import NoteContentEditor Observe PatternFacts.

Lemma orElse_nonempty (s v : JS.str) : s <> [] -> orElse (Some s) v = s.
Proof. destruct s; [contradiction|reflexivity]. Qed.

(** [autolist] hands nothing to the store. *)
Lemma autolist_no_dispatch (this : This.t) (value : JS.str) (event : ChangeEvent.t) :
  dispatches (trace (autolist this value event)) = [].
Proof.
  unfold autolist.
  destruct (This.editor this) as [[model]|]; [|reflexivity].
  destruct (ChangeEvent.isRedoing event || ChangeEvent.isUndoing event);
    [reflexivity|].
  destruct (find isNewlineChange (ChangeEvent.changes event)) as [change|];
    [|reflexivity].
  destruct (bool_decide _ || bool_decide _); [reflexivity|].
  destruct model as [model|]; [|reflexivity]. cbn [IStandaloneCodeEditor.getModel].
  unfold getLineContent.
  destruct (ITextModel.getLineContent model _) as [prevLine|]; [|reflexivity].
  cbn. destruct (execPrevList prevLine) as [prefix|]; [|reflexivity].
  destruct (ITextModel.getLineContent model _) as [thisLine|]; [|reflexivity].
  cbn. destruct (testBlank thisLine); [|reflexivity].
  cbn. destruct (This.monaco this); reflexivity.
Qed.

Section WithCodec.
Context {codec : TaskTransform}.

Lemma updateNote_after_autolist (this : This.t) (editor : IStandaloneCodeEditor.t)
      (value : JS.str) (event : ChangeEvent.t) :
  This.editor this = Some editor ->
  updateNote this value event
  = match autolist this value event with
    | (t, Normal r) =>
        (t ++ [EditNote (Props.noteId (This.props this))
                        (withCheckboxSyntax (orElse r value))], Normal tt)
    | (t, Throw e) => (t, Throw e)
    end.
Proof.
  intros Hed. unfold updateNote. rewrite Hed.
  destruct (autolist this value event) as [t [r|e]]; reflexivity.
Qed.

Lemma passesRaw_of_autolist (this : This.t) (editor : IStandaloneCodeEditor.t)
      (value : JS.str) (event : ChangeEvent.t) (t : list Call) :
  This.editor this = Some editor ->
  autolist this value event = (t, Normal None) ->
  Forall (fun c => match c with
                   | ExecuteEdits _ _ _ | Microtask _ => False
                   | _ => True
                   end) t ->
  PassesRaw this value event.
Proof.
  intros Hed Hauto Ht. unfold PassesRaw.
  pose proof (autolist_no_dispatch this value event) as Hnone.
  rewrite (updateNote_after_autolist this editor value event Hed).
  rewrite Hauto in *. cbn [trace completion fst snd orElse] in *.
  unfold dispatches in *. rewrite List.filter_app, Hnone.
  split; [reflexivity|]. split; [reflexivity|].
  apply Forall_app. split; [exact Ht|]. constructor; [exact I|constructor].
Qed.

(** The completion itself, on the first newline operation of a change. *)
Lemma updateNote_completes (this : This.t) (model : ITextModel.t)
      (monaco : Monaco) (value : JS.str) (event : ChangeEvent.t)
      (change : ChangeEvent.Change) (prevLine prefix thisLine : JS.str) :
  This.editor this = Some {| IStandaloneCodeEditor.getModel := Some model |} ->
  This.monaco this = Some monaco ->
  ChangeEvent.isRedoing event = false ->
  ChangeEvent.isUndoing event = false ->
  FirstNewlineChange (ChangeEvent.changes event) change ->
  let l := Range.startLineNumber (ChangeEvent.range change) in
  l <> 0 ->
  Range.endLineNumber (ChangeEvent.range change) = l ->
  ITextModel.getLineContent model l = Some prevLine ->
  ListPrefix prevLine prefix ->
  ITextModel.getLineContent model (l + 1) = Some thisLine ->
  WhiteSpace thisLine ->
  let lineStart := {| Position.lineNumber := l + 1; Position.column := 0 |} in
  let nextStart := {| Position.lineNumber := l + 2; Position.column := 0 |} in
  updateNote this value event
  = ([GetLineContent l; GetLineContent (l + 1);
      GetOffsetAt lineStart; GetOffsetAt nextStart;
      ExecuteEdits "autolist"
        {| Range.startLineNumber := l + 1; Range.startColumn := 0;
           Range.endLineNumber := l + 1;
           Range.endColumn := JS.length thisLine |} prefix;
      Microtask (SetPosition {| Position.lineNumber := l + 1;
                                Position.column := JS.length prefix + 1 |});
      EditNote (Props.noteId (This.props this))
        (withCheckboxSyntax
           (JS.slice value 0 (ITextModel.getOffsetAt model lineStart)
            ++ prefix ++ ChangeEvent.eol event
            ++ JS.sliceFrom value (ITextModel.getOffsetAt model nextStart)))],
     Normal tt).
Proof.
  intros Hed Hmo Hredo Hundo Hfirst l Hl Hend Hprev Hprefix Hthis Hblank
         lineStart nextStart.
  rewrite (updateNote_after_autolist this _ value event Hed).
  unfold autolist. rewrite Hed, Hredo, Hundo. cbn [orb].
  apply find_first_newline in Hfirst. rewrite Hfirst. fold l.
  rewrite Hend.
  rewrite (bool_decide_false (l = 0)) by exact Hl.
  rewrite (bool_decide_false (l <> l)) by (intros Hne; apply Hne; reflexivity).
  cbn [orb IStandaloneCodeEditor.getModel]. unfold getLineContent.
  rewrite Hprev. cbn -[orElse].
  pose proof (ListPrefix_nonempty _ _ Hprefix) as Hne.
  apply execPrevList_spec in Hprefix. rewrite Hprefix, Hthis. cbn -[orElse].
  apply testBlank_spec in Hblank. rewrite Hblank, Hmo. cbn -[orElse].
  rewrite orElse_nonempty; [reflexivity|].
  intros Hnil. apply app_eq_nil in Hnil as [_ Hnil].
  apply app_eq_nil in Hnil as [Hnil _]. contradiction.
Qed.

(** C1, amended. While the editor, its model and the [monaco] namespace
    are there: if the change comes from neither undo nor redo, the first
    edit operation whose inserted text starts with a line feed and holds
    only white space starts and ends on one line, not line 0, that line
    has a list prefix (leading white space, a list marker, white space),
    and the line after it is blank, then [updateNote] replaces the new
    line by the prefix in the surface, defers the cursor placement just
    after the prefix to a microtask, and dispatches the text up to the
    start of the new line, the prefix, the line terminator and the text
    from the start of the line after, re-encoded. When there is nothing to
    complete, the raw value is dispatched, re-encoded. And whatever
    [updateNote] dispatches is an edit of this note with re-encoded
    content. *)
Theorem updateNote_list_continuation (this : This.t) (model : ITextModel.t)
        (monaco : Monaco) (value : JS.str) (event : ChangeEvent.t) :
  This.editor this = Some {| IStandaloneCodeEditor.getModel := Some model |} ->
  This.monaco this = Some monaco ->
  let noteId := Props.noteId (This.props this) in
  (forall change prevLine prefix thisLine,
      ChangeEvent.isRedoing event = false ->
      ChangeEvent.isUndoing event = false ->
      FirstNewlineChange (ChangeEvent.changes event) change ->
      let l := Range.startLineNumber (ChangeEvent.range change) in
      l <> 0 ->
      Range.endLineNumber (ChangeEvent.range change) = l ->
      ITextModel.getLineContent model l = Some prevLine ->
      ListPrefix prevLine prefix ->
      ITextModel.getLineContent model (l + 1) = Some thisLine ->
      WhiteSpace thisLine ->
      let lineStart := {| Position.lineNumber := l + 1; Position.column := 0 |} in
      let nextStart := {| Position.lineNumber := l + 2; Position.column := 0 |} in
      updateNote this value event
      = ([GetLineContent l; GetLineContent (l + 1);
          GetOffsetAt lineStart; GetOffsetAt nextStart;
          ExecuteEdits "autolist"
            {| Range.startLineNumber := l + 1; Range.startColumn := 0;
               Range.endLineNumber := l + 1;
               Range.endColumn := JS.length thisLine |} prefix;
          Microtask (SetPosition {| Position.lineNumber := l + 1;
                                    Position.column := JS.length prefix + 1 |});
          EditNote noteId
            (withCheckboxSyntax
               (JS.slice value 0 (ITextModel.getOffsetAt model lineStart)
                ++ prefix ++ ChangeEvent.eol event
                ++ JS.sliceFrom value (ITextModel.getOffsetAt model nextStart)))],
         Normal tt))
  /\ (NothingToComplete model event -> PassesRaw this value event)
  /\ Forall (fun c => exists content,
                 c = EditNote noteId (withCheckboxSyntax content))
            (dispatches (trace (updateNote this value event))).
Proof.
  intros Hed Hmo noteId. split; [|split].
  - intros change prevLine prefix thisLine Hredo Hundo Hfirst l Hl Hend
           Hprev Hprefix Hthis Hblank lineStart nextStart.
    exact (updateNote_completes this model monaco value event change prevLine
             prefix thisLine Hed Hmo Hredo Hundo Hfirst Hl Hend Hprev Hprefix
             Hthis Hblank).
  - intros Hnothing.
    destruct Hnothing as [Hur|Hno|change Hfirst Hzero|change Hfirst Hacross
                         |change prevLine Hfirst Hprev Hnomark
                         |change prevLine thisLine Hfirst Hprev Hthis Hnb].
    + apply (passesRaw_of_autolist this _ value event [] Hed); [|constructor].
      unfold autolist. rewrite Hed.
      destruct Hur as [-> | ->]; [reflexivity|]. rewrite orb_true_r. reflexivity.
    + apply (passesRaw_of_autolist this _ value event [] Hed); [|constructor].
      unfold autolist. rewrite Hed. apply find_no_newline in Hno. rewrite Hno.
      destruct (_ || _); reflexivity.
    + apply (passesRaw_of_autolist this _ value event [] Hed); [|constructor].
      unfold autolist. rewrite Hed. apply find_first_newline in Hfirst.
      rewrite Hfirst, Hzero. destruct (_ || _); reflexivity.
    + apply (passesRaw_of_autolist this _ value event [] Hed); [|constructor].
      unfold autolist. rewrite Hed. apply find_first_newline in Hfirst.
      rewrite Hfirst. rewrite (bool_decide_true (_ <> _)) by congruence.
      rewrite orb_true_r. destruct (_ || _); reflexivity.
    + apply find_first_newline in Hfirst.
      destruct (ChangeEvent.isRedoing event || ChangeEvent.isUndoing event) eqn:Eur;
        [apply (passesRaw_of_autolist this _ value event [] Hed); [|constructor];
         unfold autolist; rewrite Hed, Eur; reflexivity|].
      destruct (bool_decide (Range.startLineNumber (ChangeEvent.range change) = 0)
                || bool_decide (Range.startLineNumber (ChangeEvent.range change)
                                <> Range.endLineNumber (ChangeEvent.range change)))
        eqn:Eline;
        [apply (passesRaw_of_autolist this _ value event [] Hed); [|constructor];
         unfold autolist; rewrite Hed, Eur, Hfirst, Eline; reflexivity|].
      apply (passesRaw_of_autolist this _ value event
               [GetLineContent (Range.startLineNumber (ChangeEvent.range change))] Hed);
        [|repeat constructor].
      unfold autolist. rewrite Hed, Eur, Hfirst, Eline.
      cbn [IStandaloneCodeEditor.getModel]. unfold getLineContent.
      rewrite Hprev. cbn.
      destruct (execPrevList prevLine) as [prefix|] eqn:Eprefix; [|reflexivity].
      apply execPrevList_spec in Eprefix. destruct (Hnomark prefix Eprefix).
    + apply find_first_newline in Hfirst.
      destruct (ChangeEvent.isRedoing event || ChangeEvent.isUndoing event) eqn:Eur;
        [apply (passesRaw_of_autolist this _ value event [] Hed); [|constructor];
         unfold autolist; rewrite Hed, Eur; reflexivity|].
      destruct (bool_decide (Range.startLineNumber (ChangeEvent.range change) = 0)
                || bool_decide (Range.startLineNumber (ChangeEvent.range change)
                                <> Range.endLineNumber (ChangeEvent.range change)))
        eqn:Eline;
        [apply (passesRaw_of_autolist this _ value event [] Hed); [|constructor];
         unfold autolist; rewrite Hed, Eur, Hfirst, Eline; reflexivity|].
      destruct (execPrevList prevLine) as [prefix|] eqn:Eprefix.
      * apply (passesRaw_of_autolist this _ value event
                 [GetLineContent (Range.startLineNumber (ChangeEvent.range change));
                  GetLineContent (Range.startLineNumber (ChangeEvent.range change) + 1)]
                 Hed); [|repeat constructor].
        unfold autolist. rewrite Hed, Eur, Hfirst, Eline.
        cbn [IStandaloneCodeEditor.getModel]. unfold getLineContent.
        rewrite Hprev. cbn. rewrite Eprefix, Hthis. cbn.
        destruct (testBlank thisLine) eqn:Eblank; [|reflexivity].
        apply testBlank_spec in Eblank. contradiction.
      * apply (passesRaw_of_autolist this _ value event
                 [GetLineContent (Range.startLineNumber (ChangeEvent.range change))]
                 Hed); [|repeat constructor].
        unfold autolist. rewrite Hed, Eur, Hfirst, Eline.
        cbn [IStandaloneCodeEditor.getModel]. unfold getLineContent.
        rewrite Hprev. cbn. rewrite Eprefix. reflexivity.
  - rewrite (updateNote_after_autolist this _ value event Hed).
    pose proof (autolist_no_dispatch this value event) as Hnone.
    destruct (autolist this value event) as [t [r|e]];
      cbn [trace fst] in *; unfold dispatches in *.
    + rewrite List.filter_app, Hnone. cbn.
      constructor; [eexists; reflexivity|constructor].
    + rewrite Hnone. constructor.
Qed.

(** C9, amended. When the first newline operation of a change starts on
    line 0, a line number that the surface, counting lines from 1, does
    not use, [updateNote] completes nothing and dispatches the raw value,
    re-encoded. On the first line of the document, line 1, a newline after
    a list prefix that leaves a blank line is completed as on any other
    line. *)
Theorem updateNote_line_zero (this : This.t) (model : ITextModel.t)
        (monaco : Monaco) (value : JS.str) (event : ChangeEvent.t)
        (change : ChangeEvent.Change) :
  This.editor this = Some {| IStandaloneCodeEditor.getModel := Some model |} ->
  This.monaco this = Some monaco ->
  FirstNewlineChange (ChangeEvent.changes event) change ->
  let noteId := Props.noteId (This.props this) in
  (Range.startLineNumber (ChangeEvent.range change) = 0 ->
   updateNote this value event
   = ([EditNote noteId (withCheckboxSyntax value)], Normal tt))
  /\ (forall prevLine prefix thisLine,
         ChangeEvent.isRedoing event = false ->
         ChangeEvent.isUndoing event = false ->
         Range.startLineNumber (ChangeEvent.range change) = 1 ->
         Range.endLineNumber (ChangeEvent.range change) = 1 ->
         ITextModel.getLineContent model 1 = Some prevLine ->
         ListPrefix prevLine prefix ->
         ITextModel.getLineContent model 2 = Some thisLine ->
         WhiteSpace thisLine ->
         dispatches (trace (updateNote this value event))
         = [EditNote noteId
              (withCheckboxSyntax
                 (JS.slice value 0
                    (ITextModel.getOffsetAt model
                       {| Position.lineNumber := 2; Position.column := 0 |})
                  ++ prefix ++ ChangeEvent.eol event
                  ++ JS.sliceFrom value
                       (ITextModel.getOffsetAt model
                          {| Position.lineNumber := 3; Position.column := 0 |})))]).
Proof.
  intros Hed Hmo Hfirst noteId. split.
  - intros Hzero.
    rewrite (updateNote_after_autolist this _ value event Hed).
    unfold autolist. rewrite Hed. apply find_first_newline in Hfirst.
    rewrite Hfirst, Hzero. destruct (_ || _); reflexivity.
  - intros prevLine prefix thisLine Hredo Hundo Hone Hend Hprev Hprefix Hthis Hblank.
    rewrite (updateNote_completes this model monaco value event change prevLine
               prefix thisLine Hed Hmo Hredo Hundo Hfirst);
      rewrite ?Hone; try assumption; try reflexivity; try discriminate.
Qed.

End WithCodec.

(** Between completing the list and finding nothing to complete there is
    no third case, as long as the model has the line of the newline and
    the line after it. *)
Lemma complete_or_nothing (model : ITextModel.t) (event : ChangeEvent.t) :
  (forall change,
      FirstNewlineChange (ChangeEvent.changes event) change ->
      is_Some (ITextModel.getLineContent model
                 (Range.startLineNumber (ChangeEvent.range change)))
      /\ is_Some (ITextModel.getLineContent model
                    (Range.startLineNumber (ChangeEvent.range change) + 1))) ->
  NothingToComplete model event
  \/ exists change prevLine prefix thisLine,
      ChangeEvent.isRedoing event = false
      /\ ChangeEvent.isUndoing event = false
      /\ FirstNewlineChange (ChangeEvent.changes event) change
      /\ Range.startLineNumber (ChangeEvent.range change) <> 0
      /\ Range.endLineNumber (ChangeEvent.range change)
         = Range.startLineNumber (ChangeEvent.range change)
      /\ ITextModel.getLineContent model
           (Range.startLineNumber (ChangeEvent.range change)) = Some prevLine
      /\ ListPrefix prevLine prefix
      /\ ITextModel.getLineContent model
           (Range.startLineNumber (ChangeEvent.range change) + 1) = Some thisLine
      /\ WhiteSpace thisLine.
Proof.
  intros Hlines.
  destruct (ChangeEvent.isRedoing event) eqn:Hredo;
    [left; apply FromUndoRedo; left; exact Hredo|].
  destruct (ChangeEvent.isUndoing event) eqn:Hundo;
    [left; apply FromUndoRedo; right; exact Hundo|].
  destruct (find isNewlineChange (ChangeEvent.changes event)) as [change|] eqn:Hfind;
    [|left; apply NoNewline; apply find_no_newline; exact Hfind].
  apply find_first_newline in Hfind.
  destruct (Hlines change Hfind) as [[prevLine Hprev] [thisLine Hthis]].
  destruct (decide (Range.startLineNumber (ChangeEvent.range change) = 0)) as [Hz|Hnz];
    [left; exact (OnLineZero model event change Hfind Hz)|].
  destruct (decide (Range.endLineNumber (ChangeEvent.range change)
                    = Range.startLineNumber (ChangeEvent.range change))) as [He|Hne];
    [|left; exact (AcrossLines model event change Hfind Hne)].
  destruct (execPrevList prevLine) as [prefix|] eqn:Hprefix.
  - destruct (testBlank thisLine) eqn:Hblank.
    + right. exists change, prevLine, prefix, thisLine.
      apply execPrevList_spec in Hprefix. apply testBlank_spec in Hblank.
      repeat split; assumption.
    + left. apply (NotBlank model event change prevLine thisLine Hfind Hprev Hthis).
      rewrite <- testBlank_spec, Hblank. discriminate.
  - left. apply (NoMarker model event change prevLine Hfind Hprev).
    intros prefix Hp. apply execPrevList_spec in Hp. congruence.
Qed.

(** The theorem on a newline typed at the end of ["- item"], the first
    line of a note: the new line becomes ["- "]. Typed at the end of
    ["item"], the raw value passes through. *)
Lemma updateNote_list_continuation_witness :
  let value := Fixture.item ++ [JS.LF] in
  let event := Fixture.typed [Fixture.changeAt 1 7 1 7 [JS.LF]] in
  let plain := JS.lit "item" ++ [JS.LF] in
  let event' := Fixture.typed [Fixture.changeAt 1 5 1 5 [JS.LF]] in
  dispatches (trace (updateNote (codec := SpecCodec.codec)
                       (Fixture.opened (7, 7, LTR) value) value event))
  = [EditNote Fixture.note1
       (Fixture.item ++ [JS.LF] ++ [Fixture.hyphen; Fixture.space] ++ [JS.LF])]
  /\ PassesRaw (codec := SpecCodec.codec)
       (Fixture.opened (5, 5, LTR) plain) plain event'.
Proof.
  intros value event plain event'. split.
  - destruct (updateNote_list_continuation (codec := SpecCodec.codec)
                (Fixture.opened (7, 7, LTR) value) (ReferenceModel.ofValue value)
                monacoApi value event eq_refl eq_refl) as (Hcont & _ & _).
    rewrite (Hcont (Fixture.changeAt 1 7 1 7 [JS.LF]) Fixture.item
               [Fixture.hyphen; Fixture.space] []).
    + vm_compute. reflexivity.
    + reflexivity.
    + reflexivity.
    + exists [], []. split; [reflexivity|]. split; [constructor|].
      exists []. split; [reflexivity|constructor].
    + discriminate.
    + reflexivity.
    + reflexivity.
    + apply execPrevList_spec. vm_compute. reflexivity.
    + reflexivity.
    + constructor.
  - destruct (updateNote_list_continuation (codec := SpecCodec.codec)
                (Fixture.opened (5, 5, LTR) plain) (ReferenceModel.ofValue plain)
                monacoApi plain event' eq_refl eq_refl) as (_ & Hraw & _).
    apply Hraw.
    apply (NoMarker _ _ (Fixture.changeAt 1 5 1 5 [JS.LF]) (JS.lit "item")).
    + exists [], []. split; [reflexivity|]. split; [constructor|].
      exists []. split; [reflexivity|constructor].
    + reflexivity.
    + intros prefix Hp. apply execPrevList_spec in Hp. vm_compute in Hp.
      discriminate.
Defined.

(** C1, as stated, fails. Two cursors press Enter: one at the end of the
    list item on line 1, one with the text from line 2, column 2 to
    line 3, column 2 selected. The change lists the lower edit first. The
    edit on line 1 inserts a single newline, starts and ends on that line,
    the line has a list prefix and the line after it is blank; yet
    [updateNote] looks at the first newline edit only, which spans two
    lines, and dispatches the raw value. *)
Lemma later_newline_edit_is_not_completed :
  let value := Fixture.item ++ [JS.LF; JS.LF; 0x61%N; JS.LF; 0x64%N] in
  let upper := Fixture.changeAt 1 7 1 7 [JS.LF] in
  let lower := Fixture.changeAt 2 2 3 2 [JS.LF] in
  let event := Fixture.typed [lower; upper] in
  let model := ReferenceModel.ofValue value in
  let completed :=
    Fixture.item ++ [JS.LF] ++ [Fixture.hyphen; Fixture.space]
      ++ [JS.LF; 0x61%N; JS.LF; 0x64%N] in
  (In upper (ChangeEvent.changes event)
   /\ ChangeEvent.text upper = [JS.LF]
   /\ Range.startLineNumber (ChangeEvent.range upper)
      = Range.endLineNumber (ChangeEvent.range upper)
   /\ ITextModel.getLineContent model 1 = Some Fixture.item
   /\ ListPrefix Fixture.item [Fixture.hyphen; Fixture.space]
   /\ ITextModel.getLineContent model 2 = Some [])
  /\ updateNote (codec := SpecCodec.codec)
       (Fixture.opened (7, 7, LTR) value) value event
     = ([EditNote Fixture.note1 value], Normal tt)
  /\ value <> completed.
Proof.
  intros value upper lower event model completed.
  split; [|split; [vm_compute; reflexivity|vm_compute; discriminate]].
  repeat split; try reflexivity.
  - right. left. reflexivity.
  - apply execPrevList_spec. vm_compute. reflexivity.
Qed.

(** The theorem on a change that reports a newline on line 0, and on a
    newline typed at the end of ["- item"] on line 1. *)
Lemma updateNote_line_zero_witness :
  let value := Fixture.item ++ [JS.LF] in
  let this := Fixture.opened (7, 7, LTR) value in
  let zero := Fixture.typed [Fixture.changeAt 0 7 0 7 [JS.LF]] in
  let one := Fixture.typed [Fixture.changeAt 1 7 1 7 [JS.LF]] in
  updateNote (codec := SpecCodec.codec) this value zero
  = ([EditNote Fixture.note1 value], Normal tt)
  /\ dispatches (trace (updateNote (codec := SpecCodec.codec) this value one))
     = [EditNote Fixture.note1
          (Fixture.item ++ [JS.LF] ++ [Fixture.hyphen; Fixture.space] ++ [JS.LF])].
Proof.
  intros value this zero one.
  assert (forall l, FirstNewlineChange [Fixture.changeAt l 7 l 7 [JS.LF]]
                      (Fixture.changeAt l 7 l 7 [JS.LF])) as Hfirst.
  { intros l. exists [], []. split; [reflexivity|]. split; [constructor|].
    exists []. split; [reflexivity|constructor]. }
  split.
  - destruct (updateNote_line_zero (codec := SpecCodec.codec) this
                (ReferenceModel.ofValue value) monacoApi value zero
                (Fixture.changeAt 0 7 0 7 [JS.LF]) eq_refl eq_refl (Hfirst 0))
      as [Hzero _].
    apply Hzero. reflexivity.
  - destruct (updateNote_line_zero (codec := SpecCodec.codec) this
                (ReferenceModel.ofValue value) monacoApi value one
                (Fixture.changeAt 1 7 1 7 [JS.LF]) eq_refl eq_refl (Hfirst 1))
      as [_ Hone].
    rewrite (Hone Fixture.item [Fixture.hyphen; Fixture.space] []);
      try reflexivity.
    + apply execPrevList_spec. vm_compute. reflexivity.
    + constructor.
Defined.

(** C9, as stated, fails. A newline typed at the end of ["- item"], the
    first line of the note (line 1), is completed: the dispatched content
    has the new line ["- "] and is not the raw value. *)
Lemma first_line_is_completed :
  let value := Fixture.item ++ [JS.LF] in
  let change := Fixture.changeAt 1 7 1 7 [JS.LF] in
  let event := Fixture.typed [change] in
  let sent := Fixture.item ++ [JS.LF] ++ [Fixture.hyphen; Fixture.space] ++ [JS.LF] in
  Range.startLineNumber (ChangeEvent.range change) = 1
  /\ ITextModel.getLineCount (ReferenceModel.ofValue value) = 2
  /\ dispatches (trace (updateNote (codec := SpecCodec.codec)
                          (Fixture.opened (7, 7, LTR) value) value event))
     = [EditNote Fixture.note1 sent]
  /\ sent <> SpecCodec.encode value.
Proof.
  intros value change event sent.
  split; [reflexivity|]. split; [reflexivity|].
  split; [vm_compute; reflexivity|vm_compute; discriminate].
Qed.

End AutolistFacts.

(** * More of the code *)

(** ** Counting words *)

Module WordFacts.
Import NoteInfo Observe Words.

Lemma matchNonSpace_head (c : JS.unit16) (s : JS.str) :
  JS.isWhiteSpace c = false -> matchNonSpace (c :: s) <> [].
Proof.
  intros Hc. cbn. rewrite Hc.
  destruct s as [|d s]; [discriminate|].
  destruct (JS.isWhiteSpace d); [discriminate|].
  destruct (matchNonSpace (d :: s)); discriminate.
Qed.

(** There are as many matches as there are word ends. *)
Lemma matchNonSpace_wordEnds (s : JS.str) :
  JS.length_list (matchNonSpace s) = wordEnds s.
Proof.
  unfold JS.length_list.
  induction s as [|c s IH]; [reflexivity|].
  cbn [matchNonSpace wordEnds].
  destruct (JS.isWhiteSpace c) eqn:Hc; cbn [negb andb]; [exact IH|].
  destruct s as [|d s]; [reflexivity|].
  destruct (JS.isWhiteSpace d) eqn:Hd.
  - cbn [List.length]. rewrite Nat2Z.inj_succ, IH. lia.
  - pose proof (matchNonSpace_head d s Hd) as Hne.
    destruct (matchNonSpace (d :: s)) as [|w ws]; [contradiction|].
    cbn [List.length] in *. lia.
Qed.

Lemma wordEnds_nonneg (s : JS.str) : 0 <= wordEnds s.
Proof.
  induction s as [|c s IH]; cbn [wordEnds]; [lia|].
  destruct (negb _ && _); lia.
Qed.

Lemma wordEnds_whiteSpace (s : JS.str) : WhiteSpace s -> wordEnds s = 0.
Proof.
  induction 1 as [|c s Hc _ IH]; [reflexivity|].
  cbn [wordEnds]. rewrite Hc, IH. reflexivity.
Qed.

(** White space in front changes nothing. *)
Lemma wordEnds_lead (l s : JS.str) : WhiteSpace l -> wordEnds (l ++ s) = wordEnds s.
Proof.
  induction 1 as [|c l Hc _ IH]; [reflexivity|].
  cbn [app wordEnds]. rewrite Hc, IH. reflexivity.
Qed.

(** Word ends add up over a seam at which the right part does not carry
    on a word. *)
Lemma wordEnds_app (a b : JS.str) :
  (forall d, head b = Some d -> JS.isWhiteSpace d = true) ->
  wordEnds (a ++ b) = wordEnds a + wordEnds b.
Proof.
  intros Hb. induction a as [|c a IH]; [reflexivity|].
  cbn [app wordEnds]. rewrite IH.
  destruct a as [|c' a]; [|cbn [app]; lia].
  cbn [app]. destruct b as [|d b]; [lia|].
  rewrite (Hb d eq_refl). lia.
Qed.

Lemma wordEnds_trail (s r : JS.str) : WhiteSpace r -> wordEnds (s ++ r) = wordEnds s.
Proof.
  intros Hr. rewrite wordEnds_app, (wordEnds_whiteSpace r Hr); [lia|].
  intros d Hd. destruct Hr as [|c r Hc _]; [discriminate|].
  injection Hd as <-. exact Hc.
Qed.

(** What [trimStart] and [trimEnd] take away. *)
Lemma trimStart_split (s : JS.str) :
  exists l, s = l ++ JS.trimStart s /\ WhiteSpace l.
Proof.
  induction s as [|c s (l & Hs & Hl)]; [exists []; split; [reflexivity|constructor]|].
  cbn [JS.trimStart]. destruct (JS.isWhiteSpace c) eqn:Hc.
  - exists (c :: l). split; [cbn; congruence|constructor; assumption].
  - exists []. split; [reflexivity|constructor].
Qed.

Lemma Forall_rev_ws (l : JS.str) : WhiteSpace l -> WhiteSpace (rev l).
Proof.
  unfold WhiteSpace. rewrite !Forall_forall. intros Hl c Hc. apply Hl.
  apply list_elem_of_In. apply list_elem_of_In in Hc. apply in_rev. exact Hc.
Qed.

Lemma trimEnd_split (s : JS.str) :
  exists r, s = JS.trimEnd s ++ r /\ WhiteSpace r.
Proof.
  unfold JS.trimEnd. destruct (trimStart_split (rev s)) as (l & Hs & Hl).
  exists (rev l). split; [|apply Forall_rev_ws; exact Hl].
  rewrite <- rev_app_distr, <- Hs, rev_involutive. reflexivity.
Qed.

Lemma trim_split (s : JS.str) :
  exists l r, s = l ++ JS.trim s ++ r /\ WhiteSpace l /\ WhiteSpace r.
Proof.
  unfold JS.trim. destruct (trimStart_split s) as (l & Hs & Hl).
  destruct (trimEnd_split (JS.trimStart s)) as (r & Hm & Hr).
  exists l, r. split; [|split; assumption]. rewrite <- Hm. exact Hs.
Qed.

Lemma punctuation_not_whiteSpace (c : JS.unit16) :
  isPunctuation c = true -> JS.isWhiteSpace c = false.
Proof.
  unfold isPunctuation. rewrite !orb_true_iff, !N.eqb_eq.
  intros [[[[[[[[[[-> | ->] | ->] | ->] | ->] | ->] | ->] | ->] | ->] | ->] | ->];
    reflexivity.
Qed.

Lemma whiteSpace_not_punctuation (c : JS.unit16) :
  JS.isWhiteSpace c = true -> isPunctuation c = false.
Proof.
  intros Hc. destruct (isPunctuation c) eqn:Hp; [|reflexivity].
  apply punctuation_not_whiteSpace in Hp. congruence.
Qed.

Lemma removePunctuation_whiteSpace (l : JS.str) :
  WhiteSpace l -> removePunctuation l = l.
Proof.
  induction 1 as [|c l Hc _ IH]; [reflexivity|].
  unfold removePunctuation in *. cbn [List.filter].
  rewrite (whiteSpace_not_punctuation c Hc). cbn [negb]. rewrite IH. reflexivity.
Qed.

Lemma removePunctuation_app (a b : JS.str) :
  removePunctuation (a ++ b) = removePunctuation a ++ removePunctuation b.
Proof. apply List.filter_app. Qed.

(** Trimming before the punctuation goes does not change the count. *)
Lemma wordEnds_trim (s : JS.str) :
  wordEnds (removePunctuation (JS.trim s)) = wordEnds (removePunctuation s).
Proof.
  destruct (trim_split s) as (l & r & Hs & Hl & Hr).
  rewrite Hs at 2. rewrite !removePunctuation_app.
  rewrite (removePunctuation_whiteSpace l Hl), (removePunctuation_whiteSpace r Hr).
  rewrite (wordEnds_lead l _ Hl), (wordEnds_trail _ r Hr). reflexivity.
Qed.

Lemma removeFirstZeroWidthRun_none (s : JS.str) :
  NoZeroWidth s -> removeFirstZeroWidthRun s = s.
Proof.
  induction 1 as [|c s Hc _ IH]; [reflexivity|].
  cbn [removeFirstZeroWidthRun].
  apply N.eqb_neq in Hc. rewrite Hc, IH. reflexivity.
Qed.

(** The word count of a text without zero-width spaces. *)
Lemma wordCount_plain (s : JS.str) :
  NoZeroWidth s -> wordCount (Some s) = wordEnds (removePunctuation s).
Proof.
  intros Hs. unfold wordCount. change (default [] (Some s)) with s.
  rewrite (removeFirstZeroWidthRun_none s Hs), matchNonSpace_wordEnds.
  apply wordEnds_trim.
Qed.

(** X1. A text made of white space and punctuation only has no words,
    and neither has a null or undefined content. *)
Theorem wordCount_nothing_to_count (s : JS.str) :
  Forall (fun c => JS.isWhiteSpace c = true \/ isPunctuation c = true) s ->
  wordCount (Some s) = 0 /\ wordCount None = 0.
Proof.
  intros Hs. split; [|reflexivity].
  rewrite wordCount_plain.
  - apply wordEnds_whiteSpace. unfold WhiteSpace, removePunctuation.
    induction Hs as [|c s Hc _ IH]; [constructor|].
    cbn [List.filter]. destruct (isPunctuation c) eqn:Hp; cbn [negb]; [exact IH|].
    constructor; [|exact IH]. destruct Hc as [Hc|Hc]; [exact Hc|discriminate].
  - eapply Forall_impl; [exact Hs|].
    intros c [Hc|Hc] ->; vm_compute in Hc; discriminate.
Qed.

Lemma wordCount_nothing_to_count_witness :
  wordCount (Some (JS.lit " - ... !? ")) = 0.
Proof.
  apply (wordCount_nothing_to_count (JS.lit " - ... !? ")).
  repeat constructor; (left; reflexivity) || (right; reflexivity).
Defined.

(** X2. Punctuation neither counts nor separates: two texts without
    zero-width spaces that are the same once their punctuation is taken
    out have the same word count. *)
Theorem wordCount_ignores_punctuation (s s' : JS.str) :
  NoZeroWidth s -> NoZeroWidth s' ->
  removePunctuation s = removePunctuation s' ->
  wordCount (Some s) = wordCount (Some s').
Proof.
  intros Hs Hs' Heq. rewrite !wordCount_plain by assumption. rewrite Heq.
  reflexivity.
Qed.

Lemma wordCount_ignores_punctuation_witness :
  wordCount (Some (JS.lit "well-known, isn't it?"))
  = wordCount (Some (JS.lit "wellknown isnt it")).
Proof.
  apply wordCount_ignores_punctuation.
  - repeat constructor; discriminate.
  - repeat constructor; discriminate.
  - reflexivity.
Defined.

(** X3. Word counts add up across white space: for texts without
    zero-width spaces, the count of two texts joined by some white space
    is the sum of their counts. *)
Theorem wordCount_additive (a b gap : JS.str) :
  NoZeroWidth a -> NoZeroWidth b -> WhiteSpace gap -> gap <> [] ->
  wordCount (Some (a ++ gap ++ b)) = wordCount (Some a) + wordCount (Some b).
Proof.
  intros Ha Hb Hgap Hne.
  assert (NoZeroWidth (a ++ gap ++ b)) as Hall.
  { apply Forall_app. split; [exact Ha|]. apply Forall_app. split; [|exact Hb].
    eapply Forall_impl; [exact Hgap|]. intros c Hc ->. discriminate. }
  rewrite !wordCount_plain by assumption.
  rewrite !removePunctuation_app, (removePunctuation_whiteSpace gap Hgap).
  rewrite wordEnds_app.
  - rewrite (wordEnds_lead gap _ Hgap). reflexivity.
  - intros d Hd. destruct Hgap as [|c gap Hc _]; [contradiction|].
    injection Hd as <-. exact Hc.
Qed.

Lemma wordCount_additive_witness :
  wordCount (Some (JS.lit "one two" ++ [JS.LF; JS.LF] ++ JS.lit "three")) = 3.
Proof.
  rewrite (wordCount_additive (JS.lit "one two") (JS.lit "three") [JS.LF; JS.LF]).
  - reflexivity.
  - repeat constructor; discriminate.
  - repeat constructor; discriminate.
  - repeat constructor.
  - discriminate.
Defined.

End WordFacts.

(** ** Words, characters and zero-width spaces *)

Module CountFacts.
Import NoteInfo Observe Words WordFacts.

Lemma length_cons (c : JS.unit16) (s : JS.str) :
  JS.length (c :: s) = 1 + JS.length s.
Proof. unfold JS.length. cbn [List.length]. lia. Qed.

Lemma surrogate_not_whiteSpace (c : JS.unit16) :
  isSurrogate c = true -> JS.isWhiteSpace c = false.
Proof.
  unfold isSurrogate, isHighSurrogate, isLowSurrogate. intros Hc.
  destruct (JS.isWhiteSpace c) eqn:E; [exfalso|reflexivity].
  unfold JS.isWhiteSpace in E.
  rewrite !orb_true_iff, !andb_true_iff, !N.eqb_eq, !N.leb_le in E.
  rewrite !orb_true_iff, !andb_true_iff, !N.leb_le in Hc. lia.
Qed.

Lemma whiteSpace_not_surrogate (c : JS.unit16) :
  JS.isWhiteSpace c = true -> isSurrogate c = false.
Proof.
  intros Hc. destruct (isSurrogate c) eqn:E; [|reflexivity].
  apply surrogate_not_whiteSpace in E. congruence.
Qed.

Lemma punctuation_not_surrogate (c : JS.unit16) :
  isPunctuation c = true -> isSurrogate c = false.
Proof.
  unfold isPunctuation. rewrite !orb_true_iff, !N.eqb_eq.
  intros [[[[[[[[[[-> | ->] | ->] | ->] | ->] | ->] | ->] | ->] | ->] | ->] | ->];
    reflexivity.
Qed.

(** A position ends a word or starts a surrogate pair, never both. *)
Lemma wordEnds_pairs_le (s : JS.str) :
  wordEnds s + surrogatePairCount s <= JS.length s.
Proof.
  induction s as [|c s IH]; [reflexivity|].
  rewrite length_cons. cbn [wordEnds surrogatePairCount].
  destruct s as [|d s].
  - rewrite andb_false_r. destruct (negb _ && true); lia.
  - destruct (isHighSurrogate c && isLowSurrogate d) eqn:Hpair.
    + apply andb_true_iff in Hpair as [_ Hd].
      rewrite (surrogate_not_whiteSpace d)
        by (unfold isSurrogate; rewrite Hd; apply orb_true_r).
      rewrite andb_false_r. lia.
    + destruct (negb _ && _); lia.
Qed.

Lemma Thinned_refl (s : JS.str) : Thinned s s.
Proof. induction s; constructor; assumption. Qed.

Lemma Thinned_length (s t : JS.str) : Thinned s t -> JS.length t <= JS.length s.
Proof.
  induction 1; rewrite ?length_cons; lia.
Qed.

(** Leaving out code units that are no surrogates breaks no pair. *)
Lemma Thinned_pairs (s t : JS.str) :
  Thinned s t -> surrogatePairCount s <= surrogatePairCount t.
Proof.
  induction 1 as [|c s t Hst IH|c s t Hc Hst IH]; [reflexivity| |].
  - cbn [surrogatePairCount].
    destruct (isHighSurrogate c) eqn:Hh; cbn [andb]; [|lia].
    destruct Hst as [|d s t Hst|d s t Hd Hst]; [lia|lia|].
    replace (isLowSurrogate d) with false
      by (unfold isSurrogate in Hd; apply orb_false_iff in Hd as [_ Hd]; congruence).
    destruct (match t with [] => false | l :: _ => isLowSurrogate l end); lia.
  - cbn [surrogatePairCount].
    unfold isSurrogate in Hc. apply orb_false_iff in Hc as [Hc _].
    rewrite Hc. cbn [andb]. lia.
Qed.

Lemma Thinned_lead (l s t : JS.str) :
  Forall (fun c => isSurrogate c = false) l -> Thinned s t -> Thinned (l ++ s) t.
Proof.
  induction 1; cbn [app]; [auto|]. intros Hst. constructor; auto.
Qed.

Lemma Thinned_trail (s r : JS.str) :
  Forall (fun c => isSurrogate c = false) r -> Thinned (s ++ r) s.
Proof.
  intros Hr. induction s as [|c s IH]; cbn [app].
  - induction Hr; constructor; assumption.
  - constructor. exact IH.
Qed.

Lemma whiteSpace_no_surrogate (l : JS.str) :
  WhiteSpace l -> Forall (fun c => isSurrogate c = false) l.
Proof.
  intros Hl. eapply Forall_impl; [exact Hl|].
  intros c Hc. apply whiteSpace_not_surrogate. exact Hc.
Qed.

Lemma Thinned_trim (s : JS.str) : Thinned s (JS.trim s).
Proof.
  destruct (trim_split s) as (l & r & Hs & Hl & Hr).
  rewrite Hs at 1. apply Thinned_lead; [apply whiteSpace_no_surrogate; exact Hl|].
  apply Thinned_trail. apply whiteSpace_no_surrogate. exact Hr.
Qed.

Lemma Thinned_removePunctuation (s : JS.str) : Thinned s (removePunctuation s).
Proof.
  unfold removePunctuation. induction s as [|c s IH]; [constructor|].
  cbn [List.filter]. destruct (isPunctuation c) eqn:Hc; cbn [negb].
  - apply thinned_drop; [apply punctuation_not_surrogate; exact Hc|exact IH].
  - constructor. exact IH.
Qed.

Lemma Thinned_dropZeroWidthRun (s : JS.str) : Thinned s (dropZeroWidthRun s).
Proof.
  induction s as [|c s IH]; [constructor|].
  cbn [dropZeroWidthRun]. destruct (N.eqb_spec c zeroWidthSpace) as [->|_].
  - apply thinned_drop; [reflexivity|exact IH].
  - apply Thinned_refl.
Qed.

Lemma Thinned_removeFirstZeroWidthRun (s : JS.str) :
  Thinned s (removeFirstZeroWidthRun s).
Proof.
  induction s as [|c s IH]; [constructor|].
  cbn [removeFirstZeroWidthRun]. destruct (N.eqb_spec c zeroWidthSpace) as [->|_].
  - apply thinned_drop; [reflexivity|apply Thinned_dropZeroWidthRun].
  - constructor. exact IH.
Qed.

(** X4. There are never more words than characters: [wordCount] is at
    most [characterCount], on every content. *)
Theorem wordCount_le_characterCount (content : option JS.str) :
  wordCount content <= characterCount content.
Proof.
  destruct content as [s|]; [|reflexivity].
  unfold wordCount, characterCount. change (default [] (Some s)) with s.
  rewrite matchNonSpace_wordEnds.
  destruct (NoteInfoFacts.count_step s) as [-> _].
  set (s1 := removeFirstZeroWidthRun s).
  set (s2 := JS.trim s1).
  set (s3 := removePunctuation s2).
  pose proof (Thinned_removeFirstZeroWidthRun s) as H1. fold s1 in H1.
  pose proof (Thinned_trim s1) as H2. fold s2 in H2.
  pose proof (Thinned_removePunctuation s2) as H3. fold s3 in H3.
  pose proof (Thinned_length _ _ H1). pose proof (Thinned_pairs _ _ H1).
  pose proof (Thinned_length _ _ H2). pose proof (Thinned_pairs _ _ H2).
  pose proof (Thinned_length _ _ H3). pose proof (Thinned_pairs _ _ H3).
  pose proof (wordEnds_pairs_le s3). lia.
Qed.

Lemma dropZeroWidthRun_run (z b : JS.str) :
  ZeroWidthRun z ->
  (forall c, head b = Some c -> c <> zeroWidthSpace) ->
  dropZeroWidthRun (z ++ b) = b.
Proof.
  intros Hz Hb. induction Hz as [|c z -> _ IH]; cbn [app].
  - destruct b as [|c b]; [reflexivity|].
    cbn [dropZeroWidthRun]. pose proof (Hb c eq_refl) as Hc.
    apply N.eqb_neq in Hc. rewrite Hc. reflexivity.
  - cbn [dropZeroWidthRun]. rewrite N.eqb_refl. exact IH.
Qed.

(** The first [replace] takes out the first run and nothing else. *)
Lemma removeFirstZeroWidthRun_run (a z b : JS.str) :
  NoZeroWidth a -> ZeroWidthRun z -> z <> [] ->
  (forall c, head b = Some c -> c <> zeroWidthSpace) ->
  removeFirstZeroWidthRun (a ++ z ++ b) = a ++ b.
Proof.
  intros Ha Hz Hne Hb. induction Ha as [|c a Hc _ IH]; cbn [app].
  - destruct Hz as [|c z -> Hz]; [contradiction|].
    cbn [app removeFirstZeroWidthRun]. rewrite N.eqb_refl.
    apply dropZeroWidthRun_run; assumption.
  - cbn [removeFirstZeroWidthRun]. apply N.eqb_neq in Hc. rewrite Hc, IH.
    reflexivity.
Qed.

(** X5. A run of zero-width spaces in a text that has no other is
    ignored, wherever it is: the word count is that of the text without
    the run, so the run neither counts as a word nor separates two. *)
Theorem wordCount_zero_width_run (a z b : JS.str) :
  NoZeroWidth a -> NoZeroWidth b -> ZeroWidthRun z ->
  wordCount (Some (a ++ z ++ b)) = wordCount (Some (a ++ b)).
Proof.
  intros Ha Hb Hz.
  destruct z as [|c z]; [reflexivity|].
  unfold wordCount. change (default [] (Some ?x)) with x.
  rewrite removeFirstZeroWidthRun_run; try assumption; [|discriminate|].
  - rewrite removeFirstZeroWidthRun_none; [reflexivity|].
    apply Forall_app. split; assumption.
  - intros d Hd. destruct Hb as [|e b He _]; [discriminate|].
    injection Hd as <-. exact He.
Qed.

Lemma wordCount_zero_width_run_witness :
  wordCount (Some (JS.lit "no" ++ [zeroWidthSpace; zeroWidthSpace] ++ JS.lit "te one")) = 2.
Proof.
  rewrite (wordCount_zero_width_run (JS.lit "no") [zeroWidthSpace; zeroWidthSpace]
             (JS.lit "te one")).
  - reflexivity.
  - repeat constructor; discriminate.
  - repeat constructor; discriminate.
  - repeat constructor.
Defined.

Lemma wordEnds_one_word (s : JS.str) :
  s <> [] -> Forall (fun c => JS.isWhiteSpace c = false) s -> wordEnds s = 1.
Proof.
  intros Hne Hs. induction Hs as [|c s Hc Hs IH]; [contradiction|].
  cbn [wordEnds]. rewrite Hc. cbn [negb andb].
  destruct Hs as [|d s Hd Hs]; [reflexivity|].
  rewrite Hd. rewrite IH by discriminate. reflexivity.
Qed.

(** X6. Only the first run of zero-width spaces is taken out: a text
    made of two such runs with white space between them, which shows no
    character at all, counts as one word. *)
Theorem wordCount_second_zero_width_run (z1 gap z2 : JS.str) :
  ZeroWidthRun z1 -> z1 <> [] ->
  WhiteSpace gap -> gap <> [] ->
  ZeroWidthRun z2 -> z2 <> [] ->
  wordCount (Some (z1 ++ gap ++ z2)) = 1.
Proof.
  intros Hz1 Hn1 Hgap Hng Hz2 Hn2.
  unfold wordCount. change (default [] (Some ?x)) with x.
  assert (removeFirstZeroWidthRun (z1 ++ gap ++ z2) = gap ++ z2) as ->.
  { apply (removeFirstZeroWidthRun_run [] z1 (gap ++ z2)); try assumption;
      [constructor|].
    intros d Hd. destruct Hgap as [|c gap Hc _]; [contradiction|].
    injection Hd as <-. intros ->. discriminate. }
  rewrite matchNonSpace_wordEnds, wordEnds_trim.
  rewrite removePunctuation_app, (removePunctuation_whiteSpace gap Hgap).
  rewrite (wordEnds_lead gap _ Hgap).
  assert (removePunctuation z2 = z2) as ->.
  { unfold removePunctuation. clear Hn2.
    induction Hz2 as [|c z2 -> _ IH]; [reflexivity|].
    cbn [List.filter]. change (isPunctuation zeroWidthSpace) with false.
    cbn [negb]. rewrite IH. reflexivity. }
  apply wordEnds_one_word; [exact Hn2|].
  eapply Forall_impl; [exact Hz2|]. intros c ->. reflexivity.
Qed.

Lemma wordCount_second_zero_width_run_witness :
  wordCount (Some ([zeroWidthSpace] ++ [0x20%N] ++ [zeroWidthSpace])) = 1.
Proof.
  apply wordCount_second_zero_width_run;
    try (repeat constructor); discriminate.
Defined.

(** The greedy replacement uses up at most two code units for each
    character it leaves. *)
Lemma replace_at_least_half (s : JS.str) :
  JS.length s <= 2 * JS.length (replaceSurrogatePairs s)
  /\ forall h, JS.length (h :: s) <= 2 * JS.length (replaceSurrogatePairs (h :: s)).
Proof.
  induction s as [|l rest [IH1 IH2]].
  - split; [reflexivity|]. intros h. cbn [replaceSurrogatePairs].
    rewrite length_cons. change (JS.length []) with 0. lia.
  - split; [apply IH2|]. intros h.
    change (replaceSurrogatePairs (h :: l :: rest))
      with (if isHighSurrogate h && isLowSurrogate l
            then underscore :: replaceSurrogatePairs rest
            else h :: replaceSurrogatePairs (l :: rest)).
    specialize (IH2 l).
    destruct (isHighSurrogate h && isLowSurrogate l);
      rewrite ?length_cons in *; lia.
Qed.

Lemma no_surrogate_no_pair (s : JS.str) :
  Forall (fun c => isSurrogate c = false) s -> surrogatePairCount s = 0.
Proof.
  induction 1 as [|c s Hc _ IH]; [reflexivity|].
  cbn [surrogatePairCount]. unfold isSurrogate in Hc.
  apply orb_false_iff in Hc as [Hc _]. rewrite Hc, IH. reflexivity.
Qed.

(** X7. [characterCount] lies between half the number of code units and
    that number, and it is that number for a text without surrogates. *)
Theorem characterCount_bounds (s : JS.str) :
  characterCount (Some s) <= JS.length s
  /\ JS.length s <= 2 * characterCount (Some s)
  /\ (Forall (fun c => isSurrogate c = false) s ->
      characterCount (Some s) = JS.length s).
Proof.
  split; [|split].
  - destruct (NoteInfoFacts.count_step s) as [Hs _].
    unfold characterCount. change (default [] (Some s)) with s. rewrite Hs.
    assert (0 <= surrogatePairCount s); [|lia].
    clear Hs. induction s as [|c s IH]; [reflexivity|].
    cbn [surrogatePairCount]. destruct (isHighSurrogate c && _); lia.
  - apply (replace_at_least_half s).
  - intros Hs. destruct (NoteInfoFacts.count_step s) as [Hc _].
    unfold characterCount. change (default [] (Some s)) with s.
    rewrite Hc, (no_surrogate_no_pair s Hs). lia.
Qed.

Lemma characterCount_bounds_witness :
  characterCount (Some (JS.lit "plain text")) = 10.
Proof.
  destruct (characterCount_bounds (JS.lit "plain text")) as (_ & _ & Hplain).
  rewrite Hplain; [reflexivity|]. repeat constructor.
Defined.

Lemma pairs_cons2 (c c' : JS.unit16) (t : JS.str) :
  surrogatePairCount (c :: c' :: t)
  = (if isHighSurrogate c && isLowSurrogate c' then 1 else 0)
    + surrogatePairCount (c' :: t).
Proof. reflexivity. Qed.

Lemma pairs_app (a b : JS.str) :
  surrogatePairCount (a ++ b)
  = surrogatePairCount a + surrogatePairCount b
    + (if splitsPair a b then 1 else 0).
Proof.
  unfold splitsPair. induction a as [|c a IH]; [cbn; lia|].
  destruct a as [|c' a].
  - cbn [app surrogatePairCount last]. rewrite andb_false_r.
    destruct b as [|d b]; cbn [head]; [rewrite andb_false_r; lia|].
    clear IH. destruct (isHighSurrogate c && isLowSurrogate d); lia.
  - change ((c :: c' :: a) ++ b) with (c :: c' :: a ++ b).
    rewrite (pairs_cons2 c c' (a ++ b)), (pairs_cons2 c c' a).
    change (c' :: a ++ b) with ((c' :: a) ++ b). rewrite IH.
    change (last (c :: c' :: a)) with (last (c' :: a)).
    destruct (isHighSurrogate c && isLowSurrogate c');
      destruct (match last (c' :: a) with
                | Some h => match head b with
                            | Some l => isHighSurrogate h && isLowSurrogate l
                            | None => false
                            end
                | None => false
                end); lia.
Qed.

(** X8. Character counts add up, except across a cut through a surrogate
    pair: the count of [a ++ b] is the sum of the counts of [a] and [b],
    less one when [a] ends in a high surrogate and [b] starts with a low
    one. *)
Theorem characterCount_app (a b : JS.str) :
  characterCount (Some (a ++ b))
  = characterCount (Some a) + characterCount (Some b)
    - (if splitsPair a b then 1 else 0).
Proof.
  unfold characterCount. change (default [] (Some ?x)) with x.
  destruct (NoteInfoFacts.count_step (a ++ b)) as [-> _].
  destruct (NoteInfoFacts.count_step a) as [-> _].
  destruct (NoteInfoFacts.count_step b) as [-> _].
  rewrite pairs_app. unfold JS.length. rewrite List.length_app. lia.
Qed.

End CountFacts.

(** ** The state over renders and prop changes *)

Module RenderFacts.
Import NoteContentEditor Observe Scenario.

Section WithCodec.
Context {codec : TaskTransform}.

Lemma deriveState_same_note (this : This.t) :
  Synced this ->
  deriveState this
  = withState this
      (if decide (Note.content (Props.note (This.props this))
                  = OwnState.content (This.state this))
       then This.state this
       else {| OwnState.content :=
                 withCheckboxCharacters (Note.content (Props.note (This.props this)));
               OwnState.editor := OwnState.editor (This.state this);
               OwnState.noteId := OwnState.noteId (This.state this);
               OwnState.overTodo := OwnState.overTodo (This.state this) |}).
Proof.
  intros Hs. unfold deriveState, getDerivedStateFromProps.
  rewrite bool_decide_false by (rewrite Hs; intros Hne; apply Hne; reflexivity).
  unfold JS.eqb. destruct (decide _) as [Heq|Hne].
  - rewrite bool_decide_true by exact Heq. reflexivity.
  - rewrite bool_decide_false by exact Hne. reflexivity.
Qed.

Lemma update_same_note_state (this : This.t) (p : Props.t) :
  Synced this ->
  Props.noteId p = Props.noteId (This.props this) ->
  let state' := This.state (fst (update this p)) in
  OwnState.editor state' = OwnState.editor (This.state this)
  /\ OwnState.noteId state' = Some (Props.noteId p)
  /\ OwnState.overTodo state' = OwnState.overTodo (This.state this)
  /\ (Note.content (Props.note p) = OwnState.content (This.state this) ->
      state' = This.state this)
  /\ (Note.content (Props.note p) <> OwnState.content (This.state this) ->
      OwnState.content state' = withCheckboxCharacters (Note.content (Props.note p))).
Proof.
  intros Hs Hid state'. subst state'. cbn [update fst].
  rewrite deriveState_same_note
    by (unfold Synced in *; cbn; rewrite Hs, Hid; reflexivity).
  cbn. destruct (decide _) as [Heq|Hne]; cbn.
  - repeat split; try (rewrite Hs, Hid; reflexivity); congruence.
  - repeat split; try (rewrite Hs, Hid; reflexivity); congruence.
Qed.

(** X9. New props for the note that is open keep the mode: the editor
    stays fast or full as it was, and the displayed content becomes the
    decoded new content, unless the new raw content is the very text on
    display, in which case the state is left as it is. *)
Theorem update_same_note (this : This.t) (p : Props.t) :
  Synced this ->
  Props.noteId p = Props.noteId (This.props this) ->
  let state' := This.state (fst (update this p)) in
  OwnState.editor state' = OwnState.editor (This.state this)
  /\ OwnState.noteId state' = Some (Props.noteId p)
  /\ OwnState.overTodo state' = OwnState.overTodo (This.state this)
  /\ (Note.content (Props.note p) = OwnState.content (This.state this) ->
      state' = This.state this)
  /\ (Note.content (Props.note p) <> OwnState.content (This.state this) ->
      OwnState.content state' = withCheckboxCharacters (Note.content (Props.note p))).
Proof. exact (update_same_note_state this p). Qed.

(** X10. Rendering again changes nothing: once the state names the note
    of the props, deriving the state a second time from the same props
    gives the same instance. *)
Theorem deriveState_stable (this : This.t) :
  Synced this -> deriveState (deriveState this) = deriveState this.
Proof.
  intros Hs. rewrite (deriveState_same_note this Hs).
  destruct (decide _) as [Heq|Hne].
  - rewrite deriveState_same_note by exact Hs. cbn.
    rewrite decide_True by exact Heq. destruct this. reflexivity.
  - rewrite deriveState_same_note by exact Hs. cbn.
    destruct (decide _); destruct this; reflexivity.
Qed.

(** X11. The cut of the fast mode lasts one render. After a switch into a
    note of more than 5000 characters whose selection ends more than 5000
    characters before the end of the note, the display is a proper
    prefix of the raw content; the next render with the same props keeps
    the fast mode and puts the whole decoded content on display. *)
Theorem fast_cut_lasts_one_render (props : Props.t) (state : OwnState.t) :
  Some (Props.noteId props) <> OwnState.noteId state ->
  let content := Note.content (Props.note props) in
  let selEnd := selectionEnd (Props.editorSelection props) in
  5000 < JS.length content ->
  0 <= selEnd + 5000 < JS.length content ->
  let first := merge state (getDerivedStateFromProps props state) in
  let second := merge first (getDerivedStateFromProps props first) in
  OwnState.editor first = fast
  /\ JS.length (OwnState.content first) = selEnd + 5000
  /\ OwnState.editor second = fast
  /\ OwnState.content second = withCheckboxCharacters content.
Proof.
  intros Hswitch content selEnd Hbig Hcut first second.
  assert (OwnState.editor first = fast
          /\ OwnState.content first = take (Z.to_nat (selEnd + 5000)) content
          /\ OwnState.noteId first = Some (Props.noteId props)) as (Hm & Hc & Hn).
  { subst first. unfold getDerivedStateFromProps.
    rewrite bool_decide_true by exact Hswitch. fold content. fold selEnd.
    destruct (Z.gtb_spec (JS.length content) 5000) as [_|?]; [|lia].
    cbn. repeat split. apply JSFacts.slice_take. lia. }
  assert (JS.length (OwnState.content first) = selEnd + 5000) as Hlen.
  { rewrite Hc. unfold JS.length in *. rewrite length_take. lia. }
  split; [exact Hm|]. split; [exact Hlen|].
  subst second. unfold getDerivedStateFromProps.
  rewrite bool_decide_false by (rewrite Hn; intros Hne; apply Hne; reflexivity).
  fold content. unfold JS.eqb.
  rewrite bool_decide_false by (intros Heq; rewrite <- Heq in Hlen; lia).
  cbn. split; [exact Hm|reflexivity].
Qed.

(** X12. Without a pending timer, the fast mode is never left while the
    same note stays open: whatever props arrive for that note and
    whatever timer handle the window is asked to run, the editor stays in
    fast mode. *)
Theorem fast_without_timer_stays (this : This.t) (w : Window.t)
        (es : list Event) :
  Synced this ->
  Window.timers w = [] ->
  OwnState.editor (This.state this) = fast ->
  Forall (keepsNote (Props.noteId (This.props this))) es ->
  OwnState.editor (This.state (fst (run (this, w) es))) = fast
  /\ Window.timers (snd (run (this, w) es)) = [].
Proof.
  intros Hs Hw Hfast Hes. revert this Hs Hfast Hes.
  induction es as [|e es IH]; intros this Hs Hfast Hes; [split; assumption|].
  apply Forall_cons in Hes as [He Hes]. unfold run. cbn [fold_left].
  destruct e as [p|id]; cbn [step fst snd].
  - cbn in He.
    destruct (update_same_note_state this p Hs He) as (Hm & Hn & _).
    apply (IH (fst (update this p))).
    + unfold Synced. cbn [update fst] in *. rewrite Hn. reflexivity.
    + rewrite Hm. exact Hfast.
    + cbn [update fst]. cbn. rewrite He. exact Hes.
  - unfold fireTimer. rewrite Hw. cbn. apply (IH this); assumption.
Qed.

End WithCodec.

Lemma update_same_note_witness :
  let this := Fixture.opened (0, 0, LTR) Fixture.item in
  let p := Fixture.propsOf Fixture.note1 (0, 0, LTR) (JS.lit "- [ ] a") in
  let state' := This.state (fst (update (codec := SpecCodec.codec) this p)) in
  OwnState.editor state' = full
  /\ OwnState.content state'
     = [Fixture.hyphen; Fixture.space; unchecked; Fixture.space; 0x61%N].
Proof.
  intros this p state'.
  destruct (update_same_note (codec := SpecCodec.codec) this p eq_refl eq_refl)
    as (Hm & _ & _ & _ & Hc).
  split; [exact Hm|]. etransitivity; [apply Hc; discriminate|reflexivity].
Defined.

Lemma deriveState_stable_witness :
  let this := deriveState (codec := SpecCodec.codec)
                (construct (Fixture.propsOf Fixture.note1 (0, 0, LTR) Fixture.oversized)) in
  deriveState (codec := SpecCodec.codec)
    (deriveState (codec := SpecCodec.codec) this)
  = deriveState (codec := SpecCodec.codec) this.
Proof.
  intros this. apply (deriveState_stable (codec := SpecCodec.codec) this).
  reflexivity.
Defined.

Lemma fast_cut_lasts_one_render_witness :
  let props := Fixture.propsOf Fixture.note1 (0, 0, LTR) Fixture.oversized in
  let first := merge initialState
                 (getDerivedStateFromProps (codec := SpecCodec.codec) props initialState) in
  let second := merge first
                  (getDerivedStateFromProps (codec := SpecCodec.codec) props first) in
  JS.length (OwnState.content first) = 5000
  /\ OwnState.content second = Fixture.oversized.
Proof.
  intros props first second.
  destruct (fast_cut_lasts_one_render (codec := SpecCodec.codec) props initialState)
    as (_ & Hlen & _ & Hc).
  - discriminate.
  - vm_compute. reflexivity.
  - vm_compute. split; [discriminate|reflexivity].
  - split; [exact Hlen|]. etransitivity; [exact Hc|vm_compute; reflexivity].
Defined.

(** The theorem after the boot timer of a short note has run and the
    oversized note 2 has been opened: new content for note 2 and a late
    timer leave the editor in fast mode. *)
Lemma fast_without_timer_stays_witness :
  let small := Fixture.propsOf Fixture.note1 (0, 0, LTR) Fixture.item in
  let big := Fixture.propsOf Fixture.note2 (0, 0, LTR) Fixture.oversized in
  let mounted := mount (codec := SpecCodec.codec) small Fixture.window0 in
  let fired := fireTimer (codec := SpecCodec.codec) (fst (fst mounted))
                 (snd (fst mounted)) 1%positive in
  let this := fst (update (codec := SpecCodec.codec) (fst fired) big) in
  let es := [ReceiveProps (Fixture.propsOf Fixture.note2 (3, 3, LTR) Fixture.oversized);
             TimerFires 1%positive;
             ReceiveProps big] in
  OwnState.editor
    (This.state (fst (run (codec := SpecCodec.codec) (this, snd fired) es))) = fast.
Proof.
  intros small big mounted fired this es.
  apply (fast_without_timer_stays (codec := SpecCodec.codec) this (snd fired) es).
  - reflexivity.
  - reflexivity.
  - vm_compute. reflexivity.
  - repeat constructor.
Defined.

End RenderFacts.

(** ** The window over the life of the component *)

Module WindowFacts.
Import NoteContentEditor Observe.

Lemma filter_armed (l : list (TimerId * EntityId)) (id : TimerId) (c : EntityId) :
  Forall (fun tm => tm.1 <> id) l ->
  filter (fun tm => tm.1 <> id) (l ++ [(id, c)]) = l.
Proof.
  intros Hl. rewrite filter_app.
  rewrite (filter_cons_False _ (id, c))
    by (intros Hne; apply Hne; reflexivity).
  rewrite filter_nil, app_nil_r.
  induction Hl as [|tm l Hne _ IH]; [reflexivity|].
  rewrite filter_cons_True by exact Hne. rewrite IH. reflexivity.
Qed.

Lemma find_cleared (l : list (TimerId * EntityId)) (id : TimerId) :
  list_find (fun tm => tm.1 = id) (filter (fun tm => tm.1 <> id) l) = None.
Proof.
  apply list_find_None. apply Forall_forall. intros tm Hin.
  apply list_elem_of_filter in Hin as [Hne _]. exact Hne.
Qed.

Section WithCodec.
Context {codec : TaskTransform}.

(** X13. Unmounting undoes what mounting did to the window: after a
    mount, any number of prop changes and the unmount, the key-down
    listeners are as many as before the mount and the pending timers are
    the ones that were pending before it. *)
Theorem mount_unmount_restores_window (props : Props.t) (w : Window.t)
        (later : list Props.t) :
  freshHandles w ->
  let mounted := mount props w in
  let this := fst (updates (fst (fst mounted)) later) in
  let w' := fst (componentWillUnmount this (snd (fst mounted))) in
  Window.timers w' = Window.timers w
  /\ Window.keydownListeners w' = Window.keydownListeners w.
Proof.
  intros Hfresh mounted this w'.
  destruct (TimerFacts.updates_keep (fst (fst mounted)) later) as (_ & Hb & _).
  { apply (TimerFacts.deriveState_synced (construct props)). }
  fold this in Hb. subst w'. unfold componentWillUnmount. rewrite Hb.
  cbn. split; [|reflexivity].
  apply filter_armed. eapply Forall_impl; [exact Hfresh|].
  intros tm Hlt Heq. apply (Pos.lt_irrefl (Window.nextTimerId w)).
  rewrite <- Heq at 1. exact Hlt.
Qed.

(** X14. A timer runs at most once, and not at all after the unmount:
    asking the window to run a handle a second time, or to run the boot
    timer of an unmounted component, changes neither the component nor
    the window. *)
Theorem timer_runs_once (this : This.t) (w : Window.t) (id : TimerId) :
  (let fired := fireTimer this w id in
   fireTimer (fst fired) (snd fired) id = fired)
  /\ (This.bootTimer this = Some id ->
      let w' := fst (componentWillUnmount this w) in
      fireTimer this w' id = (this, w')).
Proof.
  split.
  - cbn zeta. unfold fireTimer at 2 3 4.
    destruct (list_find _ (Window.timers w)) as [[n [id' captured]]|] eqn:Hfind.
    + cbn [fst snd]. unfold fireTimer. cbn [Window.clearTimeout Window.timers].
      rewrite find_cleared. reflexivity.
    + cbn [fst snd]. unfold fireTimer. rewrite Hfind. reflexivity.
  - intros Hboot w'. subst w'. unfold componentWillUnmount. rewrite Hboot.
    cbn [fst]. unfold fireTimer. cbn. rewrite find_cleared. reflexivity.
Qed.

End WithCodec.

Lemma mount_unmount_restores_window_witness :
  let props := Fixture.propsOf Fixture.note1 (0, 0, LTR) Fixture.oversized in
  let w := {| Window.timers := [(3%positive, Fixture.note2)];
              Window.nextTimerId := 4%positive;
              Window.keydownListeners := 2 |} in
  let mounted := mount (codec := SpecCodec.codec) props w in
  Window.timers (snd (fst mounted)) = [(3%positive, Fixture.note2); (4%positive, Fixture.note1)]
  /\ Window.timers (fst (componentWillUnmount (fst (fst mounted)) (snd (fst mounted))))
     = [(3%positive, Fixture.note2)].
Proof.
  intros props w mounted. split; [reflexivity|].
  apply (mount_unmount_restores_window (codec := SpecCodec.codec) props w []).
  repeat constructor.
Defined.

Lemma timer_runs_once_witness :
  let props := Fixture.propsOf Fixture.note1 (0, 0, LTR) Fixture.oversized in
  let mounted := mount (codec := SpecCodec.codec) props Fixture.window0 in
  let this := fst (fst mounted) in
  let w' := fst (componentWillUnmount this (snd (fst mounted))) in
  fireTimer (codec := SpecCodec.codec) this w' 1%positive = (this, w').
Proof.
  intros props mounted this w'.
  destruct (timer_runs_once (codec := SpecCodec.codec) this (snd (fst mounted))
              1%positive) as [_ Hun].
  apply Hun. reflexivity.
Defined.

End WindowFacts.

(** ** More on the handlers *)

Module HandlerFacts.
Import NoteContentEditor Observe Scenario PatternFacts.

(** X15. The prefix that the list completion takes from a line is a
    start of that line, at least a marker and one white space long, and
    it is its own prefix: a line made of nothing but an inserted prefix
    is a list line again, so a newline on it continues the list. *)
Theorem list_prefix_is_own_prefix (line prefix : JS.str) :
  execPrevList line = Some prefix ->
  prefix `prefix_of` line
  /\ 2 <= JS.length prefix
  /\ execPrevList prefix = Some prefix.
Proof.
  intros Hp. apply execPrevList_spec in Hp.
  destruct Hp as (indent & m & gap & rest & -> & Hi & Hm & Hne & Hg & Hr & ->).
  split; [|split].
  - exists rest. rewrite <- app_assoc. reflexivity.
  - unfold JS.length. rewrite List.length_app. cbn [List.length].
    destruct gap; [contradiction|]. cbn [List.length]. lia.
  - apply execPrevList_spec. exists indent, m, gap, [].
    rewrite app_nil_r. repeat split; auto. discriminate.
Qed.

Lemma list_prefix_is_own_prefix_witness :
  execPrevList [Fixture.space; checked; Fixture.space]
  = Some [Fixture.space; checked; Fixture.space].
Proof.
  apply (list_prefix_is_own_prefix
           ([Fixture.space; checked; Fixture.space] ++ JS.lit "done")).
  reflexivity.
Defined.

Lemma trim_inked (line : JS.str) :
  (0 <? JS.length (JS.trim line)) = true <-> ~ WhiteSpace line.
Proof.
  rewrite <- trim_nil, Z.ltb_lt. unfold JS.length.
  destruct (JS.trim line); cbn [List.length]; split; try lia; try discriminate.
  intros Hne. exfalso. apply Hne. reflexivity.
Qed.

Lemma decorated_app (t1 t2 : list Call) :
  decorated (t1 ++ t2) = decorated t1 ++ decorated t2.
Proof. apply omap_app. Qed.

Lemma decorateLoop_step (m : ITextModel.t) (n : nat) (i : Z) (line : JS.str) :
  ITextModel.getLineContent m i = Some line ->
  decorateLoop m (S n) i
  = if 0 <? JS.length (JS.trim line)
    then ([GetLineCount; GetLineContent i; DeltaDecorations i], Normal tt)
    else (GetLineCount :: GetLineContent i :: trace (decorateLoop m n (i + 1)),
          completion (decorateLoop m n (i + 1))).
Proof.
  intros Hline. cbn [decorateLoop]. unfold getLineContent. rewrite Hline.
  cbv [bind call ret]. cbn [app].
  destruct (0 <? JS.length (JS.trim line)); [reflexivity|].
  destruct (decorateLoop m n (i + 1)) as [t [[]|e]]; reflexivity.
Qed.

Lemma decorateLoop_inked (m : ITextModel.t) (k : Z) (n : nat) (i : Z) :
  i <= k -> k - i < Z.of_nat n ->
  (forall j, i <= j < k -> BlankLine m j) ->
  InkedLine m k ->
  decorated (trace (decorateLoop m n i)) = [k]
  /\ completion (decorateLoop m n i) = Normal tt.
Proof.
  revert i. induction n as [|n IH]; intros i Hik Hn Hblank Hinked; [lia|].
  destruct (Z.eq_dec i k) as [->|Hne].
  - destruct Hinked as (line & Hline & Hink).
    rewrite (decorateLoop_step m n k line Hline).
    apply trim_inked in Hink. rewrite Hink. split; reflexivity.
  - destruct (Hblank i) as (line & Hline & Hws); [lia|].
    rewrite (decorateLoop_step m n i line Hline).
    replace (0 <? JS.length (JS.trim line)) with false
      by (symmetry; apply not_true_is_false; rewrite trim_inked; tauto).
    destruct (IH (i + 1)) as [Hd Hc]; try lia; [|exact Hinked|].
    + intros j Hj. apply Hblank. lia.
    + cbn [trace completion fst snd]. split; [exact Hd|exact Hc].
Qed.

Lemma decorateLoop_blank (m : ITextModel.t) (n : nat) (i : Z) :
  (forall j, i <= j < i + Z.of_nat n -> BlankLine m j) ->
  decorated (trace (decorateLoop m n i)) = []
  /\ completion (decorateLoop m n i) = Normal tt.
Proof.
  revert i. induction n as [|n IH]; intros i Hblank; [split; reflexivity|].
  destruct (Hblank i) as (line & Hline & Hws); [lia|].
  rewrite (decorateLoop_step m n i line Hline).
  replace (0 <? JS.length (JS.trim line)) with false
    by (symmetry; apply not_true_is_false; rewrite trim_inked; tauto).
  destruct (IH (i + 1)) as [Hd Hc].
  - intros j Hj. apply Hblank. lia.
  - cbn [trace completion fst snd]. split; [exact Hd|exact Hc].
Qed.

(** X16. [decorateFirstLine] gives the title decoration to the first line
    that holds more than white space, and to that line only; when every
    line is blank it decorates none. In both cases it completes. *)
Theorem decorateFirstLine_first_inked (m : ITextModel.t) :
  let editor := {| IStandaloneCodeEditor.getModel := Some m |} in
  (forall k,
      1 <= k <= ITextModel.getLineCount m ->
      (forall j, 1 <= j < k -> BlankLine m j) ->
      InkedLine m k ->
      decorated (trace (decorateFirstLine editor)) = [k]
      /\ completion (decorateFirstLine editor) = Normal tt)
  /\ ((forall j, 1 <= j <= ITextModel.getLineCount m -> BlankLine m j) ->
      decorated (trace (decorateFirstLine editor)) = []
      /\ completion (decorateFirstLine editor) = Normal tt).
Proof.
  intros editor. unfold decorateFirstLine. cbn [editor IStandaloneCodeEditor.getModel].
  split.
  - intros k Hk Hblank Hinked. apply decorateLoop_inked; try assumption; lia.
  - intros Hblank. apply decorateLoop_blank. intros j Hj. apply Hblank. lia.
Qed.

(** On a note that starts with two blank lines, the third line is the
    title. *)
Lemma decorateFirstLine_first_inked_witness :
  decorated
    (trace (decorateFirstLine
              (ReferenceModel.editorOf ([JS.LF; 0x20%N; JS.LF] ++ JS.lit "title" ++ [JS.LF]
                                        ++ JS.lit "body"))))
  = [3].
Proof.
  destruct (decorateFirstLine_first_inked
              (ReferenceModel.ofValue ([JS.LF; 0x20%N; JS.LF] ++ JS.lit "title" ++ [JS.LF]
                                       ++ JS.lit "body"))) as [Hinked _].
  apply (Hinked 3).
  - vm_compute. split; discriminate.
  - intros j Hj. assert (j = 1 \/ j = 2) as [-> | ->] by lia.
    + exists []. split; [reflexivity|constructor].
    + exists [0x20%N]. split; [reflexivity|repeat constructor].
  - exists (JS.lit "title"). split; [reflexivity|].
    intros Hws. apply Forall_cons in Hws as [Hc _]. discriminate.
Defined.




End HandlerFacts.

(** ** Selections, clicks and lost edits *)

Module InteractionFacts.
Import NoteContentEditor Observe Scenario PatternFacts AutolistFacts.

(** X18. What the surface reports comes back to it unchanged. When a
    selection change is persisted and the persisted selection then arrives
    in the props, [componentDidUpdate] asks the surface for the positions
    of the very offsets that the surface gave for the selection's start
    and end, and sets the selection in the direction that the surface
    reported. *)
Theorem selection_round_trip (m : ITextModel.t) (this : This.t)
        (e : CursorSelectionChangedEvent.t) (prevProps : Props.t) :
  let editor := {| IStandaloneCodeEditor.getModel := Some m |} in
  let sel := CursorSelectionChangedEvent.selection e in
  isUndoOrRedo (CursorSelectionChangedEvent.reason e) = false ->
  This.editor this = Some editor ->
  OwnState.editor (This.state this) = full ->
  Props.editorSelection prevProps <> Props.editorSelection (This.props this) ->
  forall start end_ direction,
    dispatches (trace (onDidChangeCursorSelection editor this e))
    = [StoreEditorSelection (Props.noteId (This.props this))
         (Some start) (Some end_) direction] ->
    Props.editorSelection (This.props this) = (start, end_, direction) ->
    let from := ITextModel.getOffsetAt m (Selection.getStartPosition sel) in
    let to := ITextModel.getOffsetAt m (Selection.getEndPosition sel) in
    componentDidUpdate this prevProps
    = ([GetPositionAt from; GetPositionAt to;
        SetSelection (Position.lineNumber <$> ITextModel.getPositionAt m from)
                     (Position.column <$> ITextModel.getPositionAt m from)
                     (Position.lineNumber <$> ITextModel.getPositionAt m to)
                     (Position.column <$> ITextModel.getPositionAt m to)
                     (Selection.getDirection sel)],
       Normal tt).
Proof.
  intros editor sel Hreason Hed Hfull Hchanged start end_ direction Hsent Hprops.
  unfold onDidChangeCursorSelection in Hsent. rewrite Hreason in Hsent.
  cbn in Hsent. fold sel in Hsent. injection Hsent as <- <- <-.
  unfold componentDidUpdate. rewrite Hed, Hfull.
  destruct (Props.editorSelection prevProps) as [[ps pe] pd].
  rewrite Hprops in *. cbn [isFull andb].
  assert ((bool_decide (ps <> ITextModel.getOffsetAt m (Selection.getStartPosition sel))
           || bool_decide (pe <> ITextModel.getOffsetAt m (Selection.getEndPosition sel))
           || bool_decide
                (pd <> match Selection.getDirection sel with
                       | SelectionDirection.LTR => LTR
                       | SelectionDirection.RTL => RTL
                       end)) = true) as ->.
  { rewrite !orb_true_iff, !bool_decide_eq_true.
    destruct (decide (ps = ITextModel.getOffsetAt m (Selection.getStartPosition sel)))
      as [->|?]; [|tauto].
    destruct (decide (pe = ITextModel.getOffsetAt m (Selection.getEndPosition sel)))
      as [->|?]; [|tauto].
    right. intros ->. apply Hchanged. reflexivity. }
  cbn. destruct (Selection.getDirection sel); reflexivity.
Qed.

(** Selecting ["item"] backwards, persisted as (2, 6, RTL), comes back
    as the selection from column 3 to column 7 of line 1, still RTL. *)
Lemma selection_round_trip_witness :
  let this := Fixture.opened (2, 6, RTL) Fixture.item in
  componentDidUpdate this (Fixture.propsOf Fixture.note1 (0, 0, LTR) Fixture.item)
  = ([GetPositionAt 2; GetPositionAt 6;
      SetSelection (Some 1) (Some 3) (Some 1) (Some 7) SelectionDirection.RTL],
     Normal tt).
Proof.
  intros this.
  exact (selection_round_trip (ReferenceModel.ofValue Fixture.item) this
              {| CursorSelectionChangedEvent.reason := CursorChangeReason.Explicit;
                 CursorSelectionChangedEvent.selection :=
                   {| Selection.getStartPosition :=
                        {| Position.lineNumber := 1; Position.column := 3 |};
                      Selection.getEndPosition :=
                        {| Position.lineNumber := 1; Position.column := 7 |};
                      Selection.getDirection := SelectionDirection.RTL |} |}
              (Fixture.propsOf Fixture.note1 (0, 0, LTR) Fixture.item)
              eq_refl eq_refl eq_refl ltac:(discriminate) 2 6 RTL eq_refl eq_refl).
Defined.

Section WithCodec.
Context {codec : TaskTransform}.

Lemma deriveState_overTodo (this : This.t) :
  OwnState.overTodo (This.state (deriveState this))
  = OwnState.overTodo (This.state this).
Proof.
  unfold deriveState. cbn.
  destruct (getDerivedStateFromProps (This.props this) (This.state this));
    reflexivity.
Qed.

(** X19. The pointer shows what a click does. With a range under the
    mouse and a model, [onMouseMove] sets [overTodo] exactly when a
    mouse-down at the same place would dispatch an edit; without a range
    or without a model the move leaves the instance as it is and the
    click dispatches nothing. *)
Theorem hover_tells_click (editor : IStandaloneCodeEditor.t) (this : This.t)
        (range : option Range.t) :
  let moved := fst (onMouseMove editor this range) in
  let sent := dispatches (trace (onMouseDown editor this range)) in
  (is_Some range -> is_Some (IStandaloneCodeEditor.getModel editor) ->
   (OwnState.overTodo (This.state moved) = true <-> sent <> []))
  /\ (range = None \/ IStandaloneCodeEditor.getModel editor = None ->
      moved = this /\ sent = []).
Proof.
  intros moved sent. subst moved sent. split.
  - intros [r ->] [m Hm]. unfold onMouseMove, onMouseDown. rewrite Hm.
    cbn [fst]. unfold setOverTodo. rewrite deriveState_overTodo. cbn.
    destruct (bool_decide (JS.index _ _ = Some unchecked)); cbn;
      [split; [discriminate|reflexivity]|].
    destruct (bool_decide (JS.index _ _ = Some checked)); cbn;
      [split; [discriminate|reflexivity]|].
    split; [discriminate|]. intros Hne. exfalso. apply Hne. reflexivity.
  - intros [-> | Hm]; [split; reflexivity|].
    unfold onMouseMove, onMouseDown. rewrite Hm.
    destruct range; split; reflexivity.
Qed.

(** X20. Two clicks undo each other. If a mouse-down on an unchecked box
    has sent the content with the box checked, a mouse-down at the same
    offset of that content sends the first content again; and the same
    with checked and unchecked exchanged. *)
Theorem toggle_twice_restores (model : ITextModel.t) (this this' : This.t)
        (range : Range.t) (c first : JS.unit16) :
  let editor := {| IStandaloneCodeEditor.getModel := Some model |} in
  let content := OwnState.content (This.state this) in
  let offset :=
    ITextModel.getOffsetAt model
      {| Position.lineNumber := Range.startLineNumber range;
         Position.column := Range.startColumn range |} in
  (c = unchecked /\ first = checked \/ c = checked /\ first = unchecked) ->
  JS.index content offset = Some c ->
  OwnState.content (This.state this') = <[Z.to_nat offset := first]> content ->
  dispatches (trace (onMouseDown editor this (Some range)))
  = [EditNote (Props.noteId (This.props this))
       (withCheckboxSyntax (OwnState.content (This.state this')))]
  /\ dispatches (trace (onMouseDown editor this' (Some range)))
     = [EditNote (Props.noteId (This.props this')) (withCheckboxSyntax content)].
Proof.
  intros editor content offset Hcase Hc Hnext.
  pose proof (JSFacts.index_Some _ _ _ Hc) as [Hoff Hlook].
  assert (JS.index (OwnState.content (This.state this')) offset = Some first)
    as Hfirst.
  { rewrite Hnext. unfold JS.index.
    destruct (Z.ltb_spec offset 0) as [?|_]; [lia|].
    apply list_lookup_insert_eq. eapply lookup_lt_Some. exact Hlook. }
  assert (<[Z.to_nat offset := c]> (OwnState.content (This.state this')) = content)
    as Hback.
  { rewrite Hnext.
    etransitivity;
      [apply (list_insert_insert_eq content (Z.to_nat offset) c first)|].
    apply list_insert_id. exact Hlook. }
  unfold onMouseDown. cbn. fold content. fold offset.
  destruct Hcase as [[-> ->] | [-> ->]].
  - rewrite (bool_decide_true _ Hc).
    rewrite (bool_decide_false (JS.index _ offset = Some unchecked))
      by (rewrite Hfirst; discriminate).
    rewrite (bool_decide_true _ Hfirst). cbn. split.
    + change (checked :: JS.sliceFrom content (offset + 1))
        with ([checked] ++ JS.sliceFrom content (offset + 1)).
      rewrite (JSFacts.splice_insert content offset unchecked checked Hc), Hnext.
      reflexivity.
    + change (unchecked :: JS.sliceFrom ?x (offset + 1))
        with ([unchecked] ++ JS.sliceFrom x (offset + 1)).
      rewrite (JSFacts.splice_insert _ offset checked unchecked Hfirst), Hback.
      reflexivity.
  - rewrite (bool_decide_false (JS.index content offset = Some unchecked))
      by (rewrite Hc; discriminate).
    rewrite (bool_decide_true _ Hc).
    rewrite (bool_decide_true _ Hfirst). cbn. split.
    + change (unchecked :: JS.sliceFrom content (offset + 1))
        with ([unchecked] ++ JS.sliceFrom content (offset + 1)).
      rewrite (JSFacts.splice_insert content offset checked unchecked Hc), Hnext.
      reflexivity.
    + change (checked :: JS.sliceFrom ?x (offset + 1))
        with ([checked] ++ JS.sliceFrom x (offset + 1)).
      rewrite (JSFacts.splice_insert _ offset unchecked checked Hfirst), Hback.
      reflexivity.
Qed.

(** X21. An edit is dispatched only by an [updateNote] that completes.
    When [updateNote] throws, nothing has been dispatched, and it throws a
    [TypeError] whenever the editor has no model and the first newline
    operation of a change that is no undo or redo starts and ends on one
    line other than line 0; without an editor it returns at once, and
    dispatches nothing either. *)
Theorem updateNote_throw_loses_edit (this : This.t) (value : JS.str)
        (event : ChangeEvent.t) :
  (forall err, completion (updateNote this value event) = Throw err ->
               dispatches (trace (updateNote this value event)) = [])
  /\ (This.editor this = None -> updateNote this value event = ([], Normal tt))
  /\ (forall change,
         This.editor this = Some ReferenceModel.detached ->
         ChangeEvent.isRedoing event = false ->
         ChangeEvent.isUndoing event = false ->
         FirstNewlineChange (ChangeEvent.changes event) change ->
         Range.startLineNumber (ChangeEvent.range change) <> 0 ->
         Range.endLineNumber (ChangeEvent.range change)
         = Range.startLineNumber (ChangeEvent.range change) ->
         updateNote this value event = ([], Throw TypeError)).
Proof.
  split; [|split].
  - intros err Hthrow.
    destruct (This.editor this) as [editor|] eqn:Hed.
    + rewrite (updateNote_after_autolist this editor value event Hed) in *.
      pose proof (autolist_no_dispatch this value event) as Hnone.
      destruct (autolist this value event) as [t [r|e]];
        [discriminate|exact Hnone].
    + unfold updateNote. rewrite Hed. reflexivity.
  - intros Hed. unfold updateNote. rewrite Hed. reflexivity.
  - intros change Hed Hredo Hundo Hfirst Hl Hend.
    rewrite (updateNote_after_autolist this _ value event Hed).
    unfold autolist. rewrite Hed, Hredo, Hundo. cbn [orb].
    apply find_first_newline in Hfirst. rewrite Hfirst, Hend.
    rewrite (bool_decide_false (_ = 0)) by exact Hl.
    rewrite (bool_decide_false (_ <> _)) by (intros Hne; apply Hne; reflexivity).
    reflexivity.
Qed.

End WithCodec.

Lemma hover_tells_click_witness :
  let shown := SpecCodec.decode (JS.lit "- [x] done") in
  let this := Fixture.opened (0, 0, LTR) shown in
  let at_ col := Some {| Range.startLineNumber := 1; Range.startColumn := col;
                         Range.endLineNumber := 1; Range.endColumn := col |} in
  let editor := ReferenceModel.editorOf shown in
  OwnState.overTodo
    (This.state (fst (onMouseMove (codec := SpecCodec.codec) editor this (at_ 3)))) = true
  /\ OwnState.overTodo
       (This.state (fst (onMouseMove (codec := SpecCodec.codec) editor this (at_ 4)))) = false.
Proof.
  intros shown this at_ editor. split.
  - destruct (hover_tells_click (codec := SpecCodec.codec) editor this (at_ 3))
      as [Hiff _].
    apply Hiff; [eexists; reflexivity|eexists; reflexivity|].
    vm_compute. discriminate.
  - destruct (hover_tells_click (codec := SpecCodec.codec) editor this (at_ 4))
      as [Hiff _].
    apply not_true_is_false. intros Hover.
    apply Hiff in Hover; [|eexists; reflexivity|eexists; reflexivity].
    apply Hover. vm_compute. reflexivity.
Defined.

Lemma toggle_twice_restores_witness :
  let shown := SpecCodec.decode (JS.lit "- [ ] task") in
  let ticked := SpecCodec.decode (JS.lit "- [x] task") in
  let range := {| Range.startLineNumber := 1; Range.startColumn := 3;
                  Range.endLineNumber := 1; Range.endColumn := 3 |} in
  let editor := {| IStandaloneCodeEditor.getModel := Some (ReferenceModel.ofValue shown) |} in
  dispatches (trace (onMouseDown (codec := SpecCodec.codec) editor
                       (Fixture.opened (0, 0, LTR) shown) (Some range)))
  = [EditNote Fixture.note1 (JS.lit "- [x] task")]
  /\ dispatches (trace (onMouseDown (codec := SpecCodec.codec) editor
                          (Fixture.opened (0, 0, LTR) ticked) (Some range)))
     = [EditNote Fixture.note1 (JS.lit "- [ ] task")].
Proof.
  intros shown ticked range editor.
  apply (toggle_twice_restores (codec := SpecCodec.codec)
           (ReferenceModel.ofValue shown) (Fixture.opened (0, 0, LTR) shown)
           (Fixture.opened (0, 0, LTR) ticked) range unchecked checked).
  - left. split; reflexivity.
  - reflexivity.
  - reflexivity.
Defined.

Lemma updateNote_throw_loses_edit_witness :
  let value := Fixture.item ++ [JS.LF] in
  let this := withEditor (Fixture.opened (7, 7, LTR) value)
                ReferenceModel.detached monacoApi in
  let event := Fixture.typed [Fixture.changeAt 1 7 1 7 [JS.LF]] in
  updateNote (codec := SpecCodec.codec) this value event = ([], Throw TypeError).
Proof.
  intros value this event.
  destruct (updateNote_throw_loses_edit (codec := SpecCodec.codec) this value event)
    as (_ & _ & Hthrow).
  apply (Hthrow (Fixture.changeAt 1 7 1 7 [JS.LF])); try reflexivity.
  - exists [], []. split; [reflexivity|]. split; [constructor|].
    exists []. split; [reflexivity|constructor].
  - discriminate.
Defined.

End InteractionFacts.

(** ** Invariants over the life of a mounted component *)

Module RunFacts.
Import NoteContentEditor Observe Scenario.

Section WithCodec.
Context {codec : TaskTransform}.

Lemma setState_keeps (this : This.t) (p : PartialState.t) :
  Synced (setState this p)
  /\ This.bootTimer (setState this p) = This.bootTimer this
  /\ This.props (setState this p) = This.props this.
Proof.
  unfold setState. split; [apply TimerFacts.deriveState_synced|].
  split; reflexivity.
Qed.

Lemma bootCallback_keeps (captured : EntityId) (this : This.t) :
  Synced this ->
  Synced (bootCallback captured this)
  /\ This.bootTimer (bootCallback captured this) = This.bootTimer this
  /\ This.props (bootCallback captured this) = This.props this
  /\ (OwnState.editor (This.state this) = full ->
      OwnState.editor (This.state (bootCallback captured this)) = full).
Proof.
  intros Hs. unfold bootCallback.
  destruct (decide (captured = Props.noteId (This.props this))) as [->|Hne].
  - rewrite bool_decide_true by reflexivity.
    destruct (setState_keeps this
                {| PartialState.content :=
                     Some (withCheckboxCharacters
                             (Note.content (Props.note (This.props this))));
                   PartialState.editor := Some full;
                   PartialState.noteId := None |}) as (H1 & H2 & H3).
    repeat split; try assumption. intros _.
    pose proof (TimerFacts.bootCallback_promotes this Hs) as [Hfull _].
    unfold bootCallback in Hfull.
    rewrite bool_decide_true in Hfull by reflexivity. exact Hfull.
  - rewrite bool_decide_false by exact Hne. repeat split; auto.
Qed.



(** X23. The full mode is not left while the same note stays open:
    whatever props arrive for that note and whatever timer runs, an editor
    in full mode stays in full mode. *)
Theorem full_stays_full (this : This.t) (w : Window.t) (es : list Event) :
  Synced this ->
  OwnState.editor (This.state this) = full ->
  Forall (keepsNote (Props.noteId (This.props this))) es ->
  OwnState.editor (This.state (fst (run (this, w) es))) = full.
Proof.
  intros Hs Hfull Hes. revert this w Hs Hfull Hes.
  induction es as [|e es IH]; intros this w Hs Hfull Hes; [exact Hfull|].
  apply Forall_cons in Hes as [He Hes]. unfold run. cbn [fold_left].
  destruct e as [p|id]; cbn [step fst snd].
  - cbn in He.
    destruct (RenderFacts.update_same_note_state this p Hs He) as (Hm & Hn & _).
    apply (IH (fst (update this p)) w).
    + unfold Synced. cbn [update fst] in *. rewrite Hn. reflexivity.
    + rewrite Hm. exact Hfull.
    + cbn [update fst]. cbn. rewrite He. exact Hes.
  - unfold fireTimer.
    destruct (list_find _ (Window.timers w)) as [[n [id' captured]]|].
    + destruct (bootCallback_keeps captured this Hs) as (Hs' & _ & Hp & Hf).
      apply (IH (bootCallback captured this) (Window.clearTimeout w id) Hs' (Hf Hfull)).
      rewrite Hp. exact Hes.
    + apply (IH this w); assumption.
Qed.

End WithCodec.

Lemma full_stays_full_witness :
  let this := fst (fst (mount (codec := SpecCodec.codec)
                          (Fixture.propsOf Fixture.note1 (0, 0, LTR) Fixture.item)
                          Fixture.window0)) in
  let w := {| Window.timers := [(1%positive, Fixture.note1)];
              Window.nextTimerId := 2%positive;
              Window.keydownListeners := 1 |} in
  let es := [ReceiveProps (Fixture.propsOf Fixture.note1 (0, 0, LTR) Fixture.oversized);
             TimerFires 1%positive] in
  OwnState.editor (This.state (fst (run (codec := SpecCodec.codec) (this, w) es))) = full.
Proof.
  intros this w es.
  apply (full_stays_full (codec := SpecCodec.codec) this w es).
  - reflexivity.
  - reflexivity.
  - repeat constructor.
Defined.

End RunFacts.
